(** * MediCare AI service: models, registry and prediction dispatch

    A shallow embedding of [app/core/ml_models.py] and of the three
    prediction endpoints of [app/api/v1/api.py].

    Conventions of the embedding:
    - a Python [float] is a real number (no rounding, no NaN, no infinity),
      a Python [int] is an integer of [Z];
    - a Python [dict] with string keys is a finite map [gmap string _];
    - code that can raise returns a [result]: [Ok v] or [Raise e];
    - the registry is a state record threaded through its operations;
    - a model is an object with optional attributes, because the dispatch
      code probes capabilities with [hasattr]/[getattr]. *)

From Stdlib Require Import Reals Lra ZArith String List.
From stdpp Require Import gmap strings.
Import ListNotations.

Open Scope string_scope.
Open Scope R_scope.

(** ** Python values, exceptions and fallible computations *)

Module Py.

(** The scalar values a JSON feature mapping can hold.  [VOther] stands for
    nested free-form data (a dict or a list). *)
Inductive value : Type :=
  | VNone
  | VBool (b : bool)
  | VInt (n : Z)
  | VFloat (x : R)
  | VStr (s : string)
  | VOther.

(** [isinstance(v, (int, float))].  [bool] is a subclass of [int]. *)
Definition isinstance_int_float (v : value) : bool :=
  match v with
  | VBool _ | VInt _ | VFloat _ => true
  | VNone | VStr _ | VOther => false
  end.

(** The number a value denotes in arithmetic, when it has one:
    [True] is 1 and [False] is 0. *)
Definition as_number (v : value) : option R :=
  match v with
  | VBool b => Some (if b then 1 else 0)
  | VInt n => Some (IZR n)
  | VFloat x => Some x
  | VNone | VStr _ | VOther => None
  end.

(** The number used where the source has already checked [isinstance]. *)
Definition number_value (v : value) : R := default 0 (as_number v).

(** Exceptions.  The type holds instances of [Exception] only; an instance
    of a subclass is represented by the handled base class it belongs to. *)
Inductive exc_class : Type :=
  | ValueError
  | TypeError
  | KeyError
  | AttributeError
  | OtherException.

Record exn : Type := mk_exn { exn_class : exc_class; exn_text : string }.

Inductive result (A : Type) : Type :=
  | Ok (a : A)
  | Raise (e : exn).
Arguments Ok {A} a.
Arguments Raise {A} e.

Definition bind {A B : Type} (c : result A) (k : A -> result B) : result B :=
  match c with
  | Ok a => k a
  | Raise e => Raise e
  end.

(** [[f(x) for x in l]] where [f] may raise: the first exception wins. *)
Fixpoint map_result {A B : Type} (f : A -> result B) (l : list A) : result (list B) :=
  match l with
  | [] => Ok []
  | x :: l' =>
      bind (f x) (fun y => bind (map_result f l') (fun ys => Ok (y :: ys)))
  end.

(** Calling [obj.name(arg)] on an object whose attribute may be absent. *)
Definition call_method {A B : Type} (name : string) (m : option (A -> result B)) (arg : A)
  : result B :=
  match m with
  | Some f => f arg
  | None => Raise (mk_exn AttributeError ("object has no attribute " ++ name))
  end.

(** Built-in [min(a, b)]: the first argument unless the second is smaller. *)
Definition py_min (a b : R) : R := if Rlt_dec b a then b else a.

(** Built-in [sum] over values already known to be numbers. *)
Fixpoint py_sum (vals : list value) : R :=
  match vals with
  | [] => 0
  | v :: vals' => number_value v + py_sum vals'
  end.

(** [x / d] for a float constant [d]: a [TypeError] unless [x] is a number. *)
Definition truediv (v : value) (d : R) : result R :=
  match as_number v with
  | Some x => Ok (x / d)
  | None => Raise (mk_exn TypeError "unsupported operand type(s) for /")
  end.

(** [d.get(k, dflt)]. *)
Definition dict_get {V : Type} (d : gmap string V) (k : string) (dflt : V) : V :=
  default dflt (d !! k).

(** [d.setdefault(k, dflt)]: the map afterwards. *)
Definition dict_setdefault {V : Type} (d : gmap string V) (k : string) (dflt : V)
  : gmap string V :=
  match d !! k with
  | Some _ => d
  | None => <[k := dflt]> d
  end.

(** [list(d.values())] and [list(d.keys())]. *)
Definition dict_values {V : Type} (d : gmap string V) : list V := (map_to_list d).*2.
Definition dict_keys {V : Type} (d : gmap string V) : list string := (map_to_list d).*1.

End Py.
Export Py.

(** [result] is an error monad; sequencing is written [x ← c; k]. *)
#[global] Instance result_ret : MRet result := fun A a => Ok a.
#[global] Instance result_bind : MBind result := fun A B k c => bind c k.

(** ** Tables *)

(** A record is one feature mapping; a table is what [pd.DataFrame] holds:
    rows over named columns, each column with a dtype. *)
Abbreviation record := (gmap string value).

Inductive dtype : Type := DNumber | DBool | DObject.

Record DataFrame : Type := mk_df {
  df_dtypes : list (string * dtype);
  df_rows : list record
}.

(** [X.select_dtypes(include=[np.number])]: the names of the number columns. *)
Definition select_dtypes_number (X : DataFrame) : list string :=
  map fst (List.filter (fun c => match snd c with DNumber => true | _ => false end)
             (df_dtypes X)).

(** [numeric.mean(axis=1)] on one row: the mean of the cells the row has in
    the number columns.  A row with no such cell has no mean (NaN in
    pandas); here it gets the quotient by zero of the reals. *)
Definition row_mean (cols : list string) (row : record) : R :=
  let cells := omap (fun k => row !! k ≫= as_number) cols in
  fold_right Rplus 0 cells / INR (length cells).

(** Input of the batch probability method: a table, or a float array given
    by its rows (a one-dimensional array is reshaped to one row first). *)
Inductive table : Type :=
  | Frame (X : DataFrame)
  | Array (rows : list (list R)).

Definition table_len (X : table) : nat :=
  match X with
  | Frame df => length (df_rows df)
  | Array rows => length rows
  end.

(** ** [NoShowPredictor] *)

Module NoShowPredictor.

(** A fitted scikit-learn classifier, seen through the one thing the
    predictor asks of it: the positive-class probability of each row. *)
Record LogisticRegression : Type := mk_lr {
  lr_predict_proba : table -> list R
}.

Record t : Type := mk {
  model : option LogisticRegression;
  is_trained : bool;
  feature_columns : list string
}.

(** [__init__]. *)
Definition init : t := {| model := None; is_trained := false; feature_columns := [] |}.

(** The squashing shared by both heuristic paths:
    [1 / (1 + np.exp(-(s - 0.5)))]. *)
Definition logistic (s : R) : R := 1 / (1 + exp (- (s - 0.5))).

Section WithBackend.

(** Whether scikit-learn could be imported, and what fitting a classifier
    on a table and labels gives ([None] when [fit] raises). *)
Variable SKLEARN_AVAILABLE : bool.
Variable fit : DataFrame -> option (list Z) -> option LogisticRegression.

Definition train (self : t) (X : DataFrame) (y : option (list Z)) : t :=
  {| model := if SKLEARN_AVAILABLE then fit X y else None;
     is_trained := true;
     feature_columns := map fst (df_dtypes X) |}.

(** The per-row means of the heuristic fallback ([vals] in the source). *)
Definition heuristic_vals (X : table) : list R :=
  match X with
  | Frame df =>
      match select_dtypes_number df with
      | [] => repeat 0 (length (df_rows df))
      | cols => map (row_mean cols) (df_rows df)
      end
  | Array rows =>
      map (fun r => fold_right Rplus 0 r / INR (length r)) rows
  end.

Definition predict_proba (self : t) (X : table) : list R :=
  match SKLEARN_AVAILABLE, model self with
  | true, Some clf => lr_predict_proba clf X
  | _, _ => map logistic (heuristic_vals X)
  end.

Definition predict (self : t) (X : table) : list Z :=
  map (fun p => if Rge_dec p 0.5 then 1%Z else 0%Z) (predict_proba self X).

(** The dict [predict_batch] returns; a key may be missing from the dict a
    duck-typed model returns, so every field is optional. *)
Record batch_raw : Type := mk_raw {
  raw_predictions : option (list Z);
  raw_probabilities : option (list R);
  raw_risk_levels : option (list string);
  raw_explanations : option (list (option string))
}.

(** The bucket expression of [predict_batch], for one probability. *)
Definition risk_of (p : R) : string :=
  if Rge_dec p 0.7 then "HIGH" else if Rge_dec p 0.4 then "MEDIUM" else "LOW".

Definition predict_batch (self : t) (X : table) : batch_raw :=
  let probs := predict_proba self X in
  {| raw_predictions := Some (map (fun p => if Rge_dec p 0.5 then 1%Z else 0%Z) probs);
     raw_probabilities := Some probs;
     raw_risk_levels := Some (map risk_of probs);
     raw_explanations := Some (map (fun _ => None) probs) |}.

End WithBackend.

(** [predict_proba_single]: the mean of the values that pass the
    [isinstance(v, (int, float))] check, squashed; 0.1 when none passes. *)
Definition predict_proba_single (x : record) : R :=
  let vals := List.filter isinstance_int_float (dict_values x) in
  match vals with
  | [] => 0.1
  | _ :: _ => logistic (py_sum vals / INR (length vals))
  end.

End NoShowPredictor.

(** ** [PatientRiskScorer] *)

Module PatientRiskScorer.

(** The row functions handed to [df.apply(..., axis=1)]. *)
Definition cardiovascular_row (row : record) : result R :=
  a ← truediv (dict_get row "age" (VInt 0)) 100;
  c ← truediv (dict_get row "cholesterol" (VInt 0)) 500;
  Ok (py_min 1 (a + c)).

Definition diabetes_row (row : record) : result R :=
  g ← truediv (dict_get row "glucose_level" (VInt 0)) 300;
  Ok (py_min 1 g).

Definition readmission_row (row : record) : result R :=
  a ← truediv (dict_get row "previous_admissions" (VInt 0)) 8;
  Ok (py_min 1 a).

Definition calculate_cardiovascular_risk (df : DataFrame) : result (list R) :=
  map_result cardiovascular_row (df_rows df).

Definition calculate_diabetes_risk (df : DataFrame) : result (list R) :=
  map_result diabetes_row (df_rows df).

Definition calculate_readmission_risk (df : DataFrame) : result (list R) :=
  map_result readmission_row (df_rows df).

(** Element-wise [(cv + di + rd) / 3.0] of three series over one index. *)
Fixpoint mean3 (cv di rd : list R) : list R :=
  match cv, di, rd with
  | c :: cv', d :: di', r :: rd' => (c + d + r) / 3 :: mean3 cv' di' rd'
  | _, _, _ => []
  end.

Definition calculate_composite_risk (df : DataFrame) : result (list R) :=
  cv ← calculate_cardiovascular_risk df;
  di ← calculate_diabetes_risk df;
  rd ← calculate_readmission_risk df;
  Ok (mean3 cv di rd).

(** The body of the loop of [categorize_risk_levels]. *)
Definition categorize (s : R) : string :=
  if Rge_dec s 0.85 then "CRITICAL"
  else if Rge_dec s 0.7 then "HIGH"
  else if Rge_dec s 0.4 then "MEDIUM"
  else "LOW".

Definition categorize_risk_levels (scores : list R) : list string :=
  map categorize scores.

End PatientRiskScorer.

(** ** Model objects *)

(** What the registry holds and the dispatch code probes: an object with
    optional attributes.  [None] is an absent attribute. *)
Record model_obj : Type := mk_obj {
  attr_is_trained : option bool;
  attr_predict_proba_single : option (record -> result R);
  attr_predict_proba : option (DataFrame -> result (list R));
  attr_predict : option (DataFrame -> result (list Z));
  attr_predict_batch : option (DataFrame -> result NoShowPredictor.batch_raw);
  attr_calculate_composite_risk : option (DataFrame -> result (list R));
  attr_categorize_risk_levels : option (list R -> result (list string));
  attr_explain_factors : option (record -> result (list string));
  attr_last_confidence : option R
}.

(** An instance of [NoShowPredictor] as such an object. *)
Definition NoShowPredictor_obj (sklearn : bool) (p : NoShowPredictor.t) : model_obj :=
  {| attr_is_trained := Some (NoShowPredictor.is_trained p);
     attr_predict_proba_single := Some (fun x => Ok (NoShowPredictor.predict_proba_single x));
     attr_predict_proba := Some (fun X => Ok (NoShowPredictor.predict_proba sklearn p (Frame X)));
     attr_predict := Some (fun X => Ok (NoShowPredictor.predict sklearn p (Frame X)));
     attr_predict_batch := Some (fun X => Ok (NoShowPredictor.predict_batch sklearn p (Frame X)));
     attr_calculate_composite_risk := None;
     attr_categorize_risk_levels := None;
     attr_explain_factors := None;
     attr_last_confidence := None |}.

(** An instance of [PatientRiskScorer]: [__init__] sets [is_trained]. *)
Definition PatientRiskScorer_obj : model_obj :=
  {| attr_is_trained := Some true;
     attr_predict_proba_single := None;
     attr_predict_proba := None;
     attr_predict := None;
     attr_predict_batch := None;
     attr_calculate_composite_risk := Some PatientRiskScorer.calculate_composite_risk;
     attr_categorize_risk_levels :=
       Some (fun scores => Ok (PatientRiskScorer.categorize_risk_levels scores));
     attr_explain_factors := None;
     attr_last_confidence := None |}.

(** ** [ModelManager] *)

Module ModelManager.

(** The registry, with the model files of its storage directory.  A file
    holds [None] when it exists but [joblib.load] fails on it.
    [failed_baselines] records, in order, the names for which [initialize]
    logged the warning "Failed to train baseline". *)
Record t : Type := mk {
  models : gmap string model_obj;
  model_metadata : gmap string (gmap string string);
  files : gmap string (option model_obj);
  failed_baselines : list string
}.

(** What the operations take from outside: the clock, the training
    backend, whether [joblib.dump] succeeds on a model name, and the
    exception, if any, that escapes baseline training for a model name
    (raised while the synthetic table is built or the model is trained,
    that is before the registry is touched). *)
Record env : Type := mk_env {
  utcnow : string;
  SKLEARN_AVAILABLE : bool;
  fit : DataFrame -> option (list Z) -> option NoShowPredictor.LogisticRegression;
  dump_ok : string -> bool;
  baseline_error : string -> option exn
}.

(** [__init__]: empty mappings over the storage directory as it is. *)
Definition init (disk : gmap string (option model_obj)) : t :=
  {| models := ∅; model_metadata := ∅; files := disk; failed_baselines := [] |}.

Definition model_file (model_name : string) : string := model_name ++ ".joblib".

Definition load_model_from_disk (self : t) (model_name : string) : option model_obj :=
  match files self !! model_file model_name with
  | Some (Some obj) => Some obj
  | Some None => None
  | None => None
  end.

(** [self.model_metadata.setdefault(name, {})[key] = val]. *)
Definition stamp (md : gmap string (gmap string string)) (name key val : string)
  : gmap string (gmap string string) :=
  <[name := <[key := val]> (default ∅ (md !! name))]> md.

Definition save_model (e : env) (self : t) (model_name : string) (model : model_obj) : t :=
  if dump_ok e model_name then
    {| models := models self;
       model_metadata := stamp (model_metadata self) model_name "saved_at" (utcnow e);
       files := <[model_file model_name := Some model]> (files self);
       failed_baselines := failed_baselines self |}
  else self.

Definition set_model (self : t) (model_name : string) (model : model_obj) : t :=
  {| models := <[model_name := model]> (models self);
     model_metadata := model_metadata self;
     files := files self;
     failed_baselines := failed_baselines self |}.

Definition set_metadata (self : t) (model_name : string) (md : gmap string string) : t :=
  {| models := models self;
     model_metadata := <[model_name := md]> (model_metadata self);
     files := files self;
     failed_baselines := failed_baselines self |}.

(** [logger.warning("Failed to train baseline for %s: %s", name, e)]. *)
Definition warn_failed_baseline (self : t) (name : string) : t :=
  {| models := models self;
     model_metadata := model_metadata self;
     files := files self;
     failed_baselines := failed_baselines self ++ [name] |}.

(** The synthetic tables of baseline training. *)
Definition no_show_seed : DataFrame :=
  {| df_dtypes := [("patient_age", DNumber); ("previous_no_shows", DNumber);
                   ("appointment_hour", DNumber)];
     df_rows :=
       map (fun r : Z * Z * Z =>
              let '(a, n, h) := r in
              ({[ "patient_age" := VInt a; "previous_no_shows" := VInt n;
                  "appointment_hour" := VInt h ]} : record))
           [(30, 0, 9); (45, 1, 14); (60, 2, 16); (22, 0, 11)]%Z |}.

Definition train_baseline_model (e : env) (self : t) (model_name : string) : result t :=
  match baseline_error e model_name with
  | Some exc => Raise exc
  | None =>
      if decide (model_name = "no_show_predictor") then
        let model :=
          NoShowPredictor.train (SKLEARN_AVAILABLE e) (fit e) NoShowPredictor.init
            no_show_seed (Some [0; 1; 1; 0]%Z) in
        let obj := NoShowPredictor_obj (SKLEARN_AVAILABLE e) model in
        Ok (save_model e (set_model self model_name obj) model_name obj)
      else if decide (model_name = "risk_scorer") then
        Ok (save_model e (set_model self model_name PatientRiskScorer_obj)
              model_name PatientRiskScorer_obj)
      else Ok self
  end.

(** One turn of the loop of [initialize]. *)
Definition initialize_one (e : env) (self : t) (name : string) : t :=
  match load_model_from_disk self name with
  | Some loaded =>
      set_metadata (set_model self name loaded) name
        {[ "loaded_from" := "disk"; "load_time" := utcnow e ]}
  | None =>
      match train_baseline_model e self name with
      | Ok self' =>
          set_metadata self' name {[ "loaded_from" := "baseline"; "load_time" := utcnow e ]}
      | Raise _ => warn_failed_baseline self name
      end
  end.

Definition initialize (e : env) (self : t) : t :=
  let self1 :=
    set_model
      (set_model self "no_show_predictor"
         (NoShowPredictor_obj (SKLEARN_AVAILABLE e) NoShowPredictor.init))
      "risk_scorer" PatientRiskScorer_obj in
  foldl (initialize_one e) self1 (dict_keys (models self1)).

(** The loop of [health_check] over the required names. *)
Fixpoint health_loop (self : t) (required : list string) : bool :=
  match required with
  | [] => true
  | name :: rest =>
      match models self !! name with
      | None => false
      | Some m =>
          if negb (default false (attr_is_trained m)) then false
          else health_loop self rest
      end
  end.

Definition health_check (self : t) : bool :=
  health_loop self ["no_show_predictor"; "risk_scorer"].

Definition get_loaded_models (self : t) : list string := dict_keys (models self).

Definition cleanup (e : env) (self : t) : t :=
  foldl (fun st item => save_model e st (fst item) (snd item)) self
    (map_to_list (models self)).

Definition get_model (e : env) (self : t) (model_name : string) : result model_obj * t :=
  match models self !! model_name with
  | None => (Raise (mk_exn KeyError model_name), self)
  | Some m =>
      (Ok m,
       {| models := models self;
          model_metadata := stamp (model_metadata self) model_name "last_used" (utcnow e);
          files := files self;
          failed_baselines := failed_baselines self |})
  end.

(** The registry operations named by the specification. *)
Inductive op : Type :=
  | OpInitialize
  | OpGetModel (model_name : string)
  | OpSaveModel (model_name : string) (model : model_obj)
  | OpCleanup.

Definition run_op (e : env) (self : t) (o : op) : t :=
  match o with
  | OpInitialize => initialize e self
  | OpGetModel name => snd (get_model e self name)
  | OpSaveModel name model => save_model e self name model
  | OpCleanup => cleanup e self
  end.

(** A sequence of operations, each with the outside world it runs in. *)
Definition run_ops (self : t) (ops : list (env * op)) : t :=
  foldl (fun st eo => run_op (fst eo) st (snd eo)) self ops.

(** The invariant of the specification: every registered name has a
    metadata entry. *)
Definition metadata_complete (self : t) : Prop :=
  ∀ name, is_Some (models self !! name) → is_Some (model_metadata self !! name).

End ModelManager.

(** ** Prediction endpoints *)

Module Api.

(** How a handler ends: with a response body, with an [HTTPException], or
    with an exception nobody caught. *)
Inductive outcome (A : Type) : Type :=
  | Success (body : A)
  | HTTPException (status_code : Z) (detail : string)
  | Unhandled (e : exn).
Arguments Success {A} body.
Arguments HTTPException {A} status_code detail.
Arguments Unhandled {A} e.

(** The JSON error body the application sends, by [http_exception_handler]
    and [general_exception_handler] of [main.py]. *)
Record error_body : Type := mk_error {
  error_code : Z;
  error_message : string;
  error_path : string
}.

Definition client_error {A : Type} (path : string) (o : outcome A) : option error_body :=
  match o with
  | Success _ => None
  | HTTPException status detail => Some (mk_error status detail path)
  | Unhandled _ => Some (mk_error 500 "Internal server error" path)
  end.

Record AppointmentFeatures : Type := mk_features {
  patient_age : option Z;
  previous_no_shows : option Z;
  appointment_lead_time : option Z;
  day_of_week : option string;
  is_weekend : option bool;
  referral_source : option string;
  extra : option unit
}.

Record NoShowPredictionRequest : Type := mk_no_show_request {
  appointment_id : option Z;
  patient_id : Z;
  appointment_data : AppointmentFeatures
}.

Record NoShowPredictionResponse : Type := mk_no_show_response {
  prediction : Z;
  probability : R;
  risk_level : string;
  confidence : option R;
  factors : option (list string)
}.

Record RiskScoreRequest : Type := mk_risk_request {
  risk_patient_id : Z;
  patient_data : record
}.

Record RiskScoreResponse : Type := mk_risk_response {
  risk_score : R;
  risk_score_level : string;
  risk_confidence : option R;
  risk_factors : option (list string)
}.

Record BatchPredictRequest : Type := mk_batch_request {
  model_name : string;
  data : list record
}.

Record BatchPredictResponse : Type := mk_batch_response {
  predictions : list Z;
  probabilities : option (list R);
  risk_levels : option (list string);
  explanations : option (list (option string))
}.

Definition opt_value {A : Type} (f : A -> value) (o : option A) : value :=
  match o with
  | Some a => f a
  | None => VNone
  end.

(** [payload.appointment_data.dict()]. *)
Definition features_dict (f : AppointmentFeatures) : record :=
  {[ "patient_age" := opt_value VInt (patient_age f);
     "previous_no_shows" := opt_value VInt (previous_no_shows f);
     "appointment_lead_time" := opt_value VInt (appointment_lead_time f);
     "day_of_week" := opt_value VStr (day_of_week f);
     "is_weekend" := opt_value VBool (is_weekend f);
     "referral_source" := opt_value VStr (referral_source f);
     "extra" := opt_value (fun _ => VOther) (extra f) ]}.

(** The feature mapping of the no-show endpoint, enriched with the
    identifiers that are truthy. *)
Definition no_show_data (payload : NoShowPredictionRequest) : record :=
  let data := features_dict (appointment_data payload) in
  let data :=
    if decide (patient_id payload = 0%Z) then data
    else dict_setdefault data "patient_id" (VInt (patient_id payload)) in
  match appointment_id payload with
  | Some a =>
      if decide (a = 0%Z) then data else dict_setdefault data "appointment_id" (VInt a)
  | None => data
  end.

(** The constructor of the response model: [prediction] and [probability]
    carry [ge=0, le=1] constraints, and a violated constraint raises a
    validation error, which is a [ValueError]. *)
Definition new_no_show_response (label : Z) (prob : R) (risk : string)
    (conf : option R) (fs : option (list string)) : result NoShowPredictionResponse :=
  if decide (0 ≤ label ≤ 1)%Z then
    if Rle_dec 0 prob then
      if Rle_dec prob 1 then Ok (mk_no_show_response label prob risk conf fs)
      else Raise (mk_exn ValueError "probability: ensure this value is less than or equal to 1.0")
    else Raise (mk_exn ValueError "probability: ensure this value is greater than or equal to 0.0")
  else Raise (mk_exn ValueError "prediction: value out of range").

(** [seq[0]]. *)
Definition first {A : Type} (l : list A) : result A :=
  match l with
  | x :: _ => Ok x
  | [] => Raise (mk_exn OtherException "index out of range")
  end.

(** The optional [explain_factors] hook. *)
Definition explain (model : model_obj) (d : record) : result (option (list string)) :=
  match attr_explain_factors model with
  | Some f => fs ← f d; Ok (Some fs)
  | None => Ok None
  end.

(** The label and the bucket computed inline by [predict_no_show]. *)
Definition no_show_label (prob : R) : Z := if Rge_dec prob 0.5 then 1%Z else 0%Z.

Definition no_show_risk (prob : R) : string :=
  if Rge_dec prob 0.7 then "HIGH" else if Rge_dec prob 0.4 then "MEDIUM" else "LOW".

Section Endpoints.

(** The clock and backend of the registry, and the [pd.DataFrame]
    constructor applied to a list of feature mappings. *)
Variable e : ModelManager.env.
Variable pd_DataFrame : list record -> DataFrame.

(** The probability of the no-show endpoint: the single-record method when
    the model has one, else the first value of the batch method. *)
Definition no_show_prob (model : model_obj) (d : record) : result R :=
  match attr_predict_proba_single model with
  | Some f => f d
  | None =>
      probs ← call_method "predict_proba" (attr_predict_proba model) (pd_DataFrame [d]);
      first probs
  end.

(** The [try] block of [predict_no_show]. *)
Definition no_show_try (model : model_obj) (d : record) : result NoShowPredictionResponse :=
  prob ← no_show_prob model d;
  let label := no_show_label prob in
  let risk := no_show_risk prob in
  let conf := attr_last_confidence model in
  fs ← explain model d;
  new_no_show_response label prob risk conf fs.

Definition predict_no_show (manager : option ModelManager.t) (payload : NoShowPredictionRequest)
  : outcome NoShowPredictionResponse * option ModelManager.t :=
  match manager with
  | None => (HTTPException 503 "Model manager not available", None)
  | Some mgr =>
      match ModelManager.get_model e mgr "no_show_predictor" with
      | (Raise exc, mgr') =>
          (match exn_class exc with
           | KeyError => HTTPException 404 "Model not found"
           | _ => Unhandled exc
           end, Some mgr')
      | (Ok model, mgr') =>
          (match no_show_try model (no_show_data payload) with
           | Ok resp => Success resp
           | Raise exc =>
               match exn_class exc with
               | ValueError | TypeError => HTTPException 400 "Invalid input"
               | _ => HTTPException 500 "Prediction failed"
               end
           end, Some mgr')
      end
  end.

(** The [try] block of [predict_risk]. *)
Definition risk_try (model : model_obj) (d : record) : result RiskScoreResponse :=
  let df := pd_DataFrame [d] in
  scores ← call_method "calculate_composite_risk" (attr_calculate_composite_risk model) df;
  score ← first scores;
  level ← match attr_categorize_risk_levels model with
          | Some f => levels ← f [score]; first levels
          | None => Ok "UNKNOWN"
          end;
  fs ← explain model d;
  let conf := attr_last_confidence model in
  Ok (mk_risk_response score level conf fs).

Definition predict_risk (manager : option ModelManager.t) (payload : RiskScoreRequest)
  : outcome RiskScoreResponse * option ModelManager.t :=
  match manager with
  | None => (HTTPException 503 "Model manager not available", None)
  | Some mgr =>
      match ModelManager.get_model e mgr "risk_scorer" with
      | (Raise exc, mgr') =>
          (match exn_class exc with
           | KeyError => HTTPException 404 "Model not found"
           | _ => Unhandled exc
           end, Some mgr')
      | (Ok model, mgr') =>
          (match risk_try model (patient_data payload) with
           | Ok resp => Success resp
           | Raise exc =>
               match exn_class exc with
               | ValueError | TypeError => HTTPException 400 "Invalid input"
               | _ => HTTPException 500 "Prediction failed"
               end
           end, Some mgr')
      end
  end.

(** The [try] block of [predict_batch]. *)
Definition batch_try (model : model_obj) (rows : list record) : result BatchPredictResponse :=
  let df := pd_DataFrame rows in
  match attr_predict_batch model with
  | Some f =>
      raw ← f df;
      Ok (mk_batch_response
            (default [] (NoShowPredictor.raw_predictions raw))
            (NoShowPredictor.raw_probabilities raw)
            (NoShowPredictor.raw_risk_levels raw)
            (NoShowPredictor.raw_explanations raw))
  | None =>
      preds ← call_method "predict" (attr_predict model) df;
      probs ← match attr_predict_proba model with
              | Some g => probs_raw ← g df; Ok (Some probs_raw)
              | None => Ok None
              end;
      Ok (mk_batch_response preds probs None None)
  end.

Definition predict_batch (manager : option ModelManager.t) (payload : BatchPredictRequest)
  : outcome BatchPredictResponse * option ModelManager.t :=
  match manager with
  | None => (HTTPException 503 "Model manager not available", None)
  | Some mgr =>
      match ModelManager.get_model e mgr (model_name payload) with
      | (Raise exc, mgr') =>
          (match exn_class exc with
           | KeyError => HTTPException 404 "Model not found"
           | _ => Unhandled exc
           end, Some mgr')
      | (Ok model, mgr') =>
          (match batch_try model (data payload) with
           | Ok resp => Success resp
           | Raise exc =>
               match exn_class exc with
               | ValueError | TypeError => HTTPException 400 "Invalid input"
               | _ => HTTPException 500 "Prediction failed"
               end
           end, Some mgr')
      end
  end.

End Endpoints.

(** The body of [GET /models]. *)
Record models_listing : Type := mk_listing {
  listing_models : list string;
  listing_metadata : gmap string (gmap string string)
}.

Definition list_models (manager : option ModelManager.t) : models_listing :=
  match manager with
  | None => mk_listing [] ∅
  | Some mgr =>
      mk_listing (ModelManager.get_loaded_models mgr) (ModelManager.model_metadata mgr)
  end.

(** The body of [GET /models/{model_name}/info]. *)
Record model_info_body : Type := mk_info {
  info_model : string;
  info_metadata : gmap string string
}.

Definition model_info (manager : option ModelManager.t) (model_name : string)
  : outcome model_info_body :=
  match manager with
  | None => HTTPException 404 "Model manager not available"
  | Some mgr =>
      Success (mk_info model_name (dict_get (ModelManager.model_metadata mgr) model_name ∅))
  end.

End Api.

(** ** The vocabulary of the specification *)

Module Spec.

(** A field of a row, with 0 in place of an absent one. *)
Definition field (row : record) (k : string) : R :=
  number_value (dict_get row k (VInt 0)).

(** The four fields the composite scorer reads. *)
Definition risk_fields : list string :=
  ["age"; "cholesterol"; "glucose_level"; "previous_admissions"].

(** A row whose scorer fields, where present, hold numbers. *)
Definition numeric_row (row : record) : Prop :=
  Forall (fun k => is_Some (as_number (dict_get row k (VInt 0)))) risk_fields.

(** A row whose scorer fields are not negative. *)
Definition nonneg_row (row : record) : Prop :=
  Forall (fun k => 0 <= field row k) risk_fields.

(** The sub-scores and the composite score as the specification writes them. *)
Definition cardiovascular (row : record) : R :=
  Rmin 1 (field row "age" / 100 + field row "cholesterol" / 500).

Definition diabetes (row : record) : R := Rmin 1 (field row "glucose_level" / 300).

Definition readmission (row : record) : R := Rmin 1 (field row "previous_admissions" / 8).

Definition composite (row : record) : R :=
  (cardiovascular row + diabetes row + readmission row) / 3.

(** The numeric values of a record, and the mean of a list of numbers. *)
Definition numeric_values (x : record) : list R :=
  omap (fun v => if isinstance_int_float v then as_number v else None) (dict_values x).

Definition mean (l : list R) : R := fold_right Rplus 0 l / INR (length l).

(** What a boolean contributes to a mean: 1.0 for [True], 0.0 for [False]. *)
Definition bool_number (b : bool) : R := if b then 1 else 0.

(** The response the error mapping prescribes for an exception raised
    while predicting. *)
Definition prediction_error {A : Type} (exc : exn) : Api.outcome A :=
  match exn_class exc with
  | ValueError | TypeError => Api.HTTPException 400 "Invalid input"
  | _ => Api.HTTPException 500 "Prediction failed"
  end.

(** The heuristic path of the batch probability method is taken. *)
Definition heuristic_path (sklearn : bool) (self : NoShowPredictor.t) : Prop :=
  sklearn = false \/ NoShowPredictor.model self = None.

(** The composite score stays within [0, 1] on a table. *)
Definition composite_in_unit_interval (df : DataFrame) : Prop :=
  forall scores,
    PatientRiskScorer.calculate_composite_risk df = Ok scores ->
    Forall (fun s => 0 <= s <= 1) scores.

(** No baseline training has raised in the life of a registry. *)
Definition no_baseline_failed (self : ModelManager.t) : Prop :=
  ModelManager.failed_baselines self = [].

End Spec.

(** ** Concrete inputs *)

Module Examples.

(** One patient with a negative age and nothing else. *)
Definition negative_age_frame : DataFrame :=
  {| df_dtypes := [("age", DNumber)];
     df_rows := [({[ "age" := VInt (-100) ]} : record)] |}.

(** One patient of age 50 with cholesterol 200. *)
Definition plain_frame : DataFrame :=
  {| df_dtypes := [("age", DNumber); ("cholesterol", DNumber)];
     df_rows := [({[ "age" := VInt 50; "cholesterol" := VInt 200 ]} : record)] |}.

(** A record whose only value is a boolean, and one whose only value is text. *)
Definition weekday_record : record := {[ "is_weekend" := VBool false ]}.
Definition text_record : record := {[ "day_of_week" := VStr "Mon" ]}.

(** The model of the exception tests: every prediction raises [exc]. *)
Definition raising_model (exc : exn) : model_obj :=
  {| attr_is_trained := None;
     attr_predict_proba_single := Some (fun _ => Raise exc);
     attr_predict_proba := None;
     attr_predict := None;
     attr_predict_batch := Some (fun _ => Raise exc);
     attr_calculate_composite_risk := Some (fun _ => Raise exc);
     attr_categorize_risk_levels := None;
     attr_explain_factors := None;
     attr_last_confidence := None |}.

Definition secret_error : exn := mk_exn OtherException "internal details: secret".
Definition leak_error : exn := mk_exn ValueError "bad features: leak".

(** A registry holding one model under one name. *)
Definition manager_with (name : string) (m : model_obj) : ModelManager.t :=
  {| ModelManager.models := {[ name := m ]};
     ModelManager.model_metadata := ∅;
     ModelManager.files := ∅;
     ModelManager.failed_baselines := [] |}.

(** An outside world where nothing is on disk to rely on: every dump and
    every baseline training fails. *)
Definition failing_env : ModelManager.env :=
  {| ModelManager.utcnow := "2024-01-01T00:00:00";
     ModelManager.SKLEARN_AVAILABLE := false;
     ModelManager.fit := fun _ _ => None;
     ModelManager.dump_ok := fun _ => false;
     ModelManager.baseline_error := fun _ => Some (mk_exn OtherException "training failed") |}.

(** An outside world where everything works, without scikit-learn. *)
Definition working_env : ModelManager.env :=
  {| ModelManager.utcnow := "2024-01-01T00:00:00";
     ModelManager.SKLEARN_AVAILABLE := false;
     ModelManager.fit := fun _ _ => None;
     ModelManager.dump_ok := fun _ => true;
     ModelManager.baseline_error := fun _ => None |}.

(** A registry holding a trained predictor and the scorer. *)
Definition healthy_manager : ModelManager.t :=
  {| ModelManager.models :=
       {[ "no_show_predictor" :=
            NoShowPredictor_obj false
              (NoShowPredictor.train false (fun _ _ => None) NoShowPredictor.init
                 ModelManager.no_show_seed None);
          "risk_scorer" := PatientRiskScorer_obj ]};
     ModelManager.model_metadata := ∅;
     ModelManager.files := ∅;
     ModelManager.failed_baselines := [] |}.

(** A fresh registry over an empty storage directory, initialized while
    every baseline training raises. *)
Definition after_failed_initialize : ModelManager.t :=
  ModelManager.run_ops (ModelManager.init ∅) [(failing_env, ModelManager.OpInitialize)].

(** A stand-in for the [pd.DataFrame] constructor: the records as rows,
    with no typed column. *)
Definition frame_of_records (rows : list record) : DataFrame :=
  {| df_dtypes := []; df_rows := rows |}.

(** A patient whose age is text, and a batch for the scorer. *)
Definition text_age_request : Api.RiskScoreRequest :=
  {| Api.risk_patient_id := 2001; Api.patient_data := {[ "age" := VStr "old" ]} |}.

Definition scorer_batch_request : Api.BatchPredictRequest :=
  {| Api.model_name := "risk_scorer"; Api.data := [({[ "age" := VInt 50 ]} : record)] |}.

Definition scorer_manager : ModelManager.t := manager_with "risk_scorer" PatientRiskScorer_obj.

(** The payload of the exception tests. *)
Definition sample_request : Api.NoShowPredictionRequest :=
  {| Api.appointment_id := None;
     Api.patient_id := 2001;
     Api.appointment_data :=
       {| Api.patient_age := Some 54%Z;
          Api.previous_no_shows := Some 2%Z;
          Api.appointment_lead_time := Some 3%Z;
          Api.day_of_week := Some "Mon";
          Api.is_weekend := Some false;
          Api.referral_source := Some "GP";
          Api.extra := None |} |}.

End Examples.

(** ** The application: health endpoint and CORS set-up of [main.py] *)

Module Main.

(** The two fields of [KafkaClient] that [is_connected] reads. *)
Record KafkaClient : Type := mk_kafka {
  kafka_running : bool;
  kafka_producer : option unit
}.

Definition is_connected (k : KafkaClient) : bool :=
  kafka_running k && match kafka_producer k with Some _ => true | None => false end.

Record health_services : Type := mk_services {
  svc_redis : string;
  svc_models : string;
  svc_kafka : string
}.

Record health_body : Type := mk_health {
  health_status : string;
  health_timestamp : string;
  services : health_services;
  models_loaded : list string
}.

(** [GET /health], given the outcome of the Redis ping, the registry and
    the Kafka client of the application state. *)
Definition health_check (now : string) (redis_ping : result unit)
    (manager : option ModelManager.t) (kafka : option KafkaClient)
  : Api.outcome health_body :=
  match redis_ping with
  | Raise _ => Api.HTTPException 503 "Service unhealthy"
  | Ok _ =>
      let model_status :=
        match manager with
        | None => false
        | Some mgr => ModelManager.health_check mgr
        end in
      let loaded :=
        match manager with
        | None => []
        | Some mgr => ModelManager.get_loaded_models mgr
        end in
      let kafka_status :=
        match kafka with
        | Some k => is_connected k
        | None => false
        end in
      Api.Success
        (mk_health "healthy" now
           (mk_services "healthy"
              (if model_status then "healthy" else "unhealthy")
              (if kafka_status then "healthy" else "unhealthy"))
           loaded)
  end.

(** [o.startswith(prefix)]. *)
Definition startswith (o pre : string) : bool := String.prefix pre o.

(** The loop body of the origin normalization. *)
Definition normalize_origin (o : string) : string :=
  if String.eqb o "*" then o
  else if startswith o "http://" || startswith o "https://" then o
  else "http://" ++ o.

(** The CORS set-up: the origins handed to the middleware and whether
    credentials are allowed. *)
Definition cors_config (allowed_hosts : list string) : list string * bool :=
  match allowed_hosts with
  | [o] =>
      if String.eqb o "*" then (allowed_hosts, false)
      else (map normalize_origin allowed_hosts, true)
  | _ => (map normalize_origin allowed_hosts, true)
  end.

End Main.

(** ** Notions used by the further properties *)

Module Derived.

(** The part of the registry that belongs to one model name: its model,
    its metadata entry and its file. *)
Definition view (name : string) (self : ModelManager.t)
  : option model_obj * option (gmap string string) * option (option model_obj) :=
  (ModelManager.models self !! name,
   ModelManager.model_metadata self !! name,
   ModelManager.files self !! ModelManager.model_file name).

(** The order of the risk categories, LOW lowest. *)
Definition severity (level : string) : nat :=
  if String.eqb level "CRITICAL" then 3
  else if String.eqb level "HIGH" then 2
  else if String.eqb level "MEDIUM" then 1
  else 0.



(** The metadata entry [initialize] writes. *)
Definition load_entry (source now : string) : gmap string string :=
  {[ "loaded_from" := source; "load_time" := now ]}.

(** The object baseline training registers under a required name. *)
Definition baseline_object (e : ModelManager.env) (name : string) : model_obj :=
  if decide (name = "no_show_predictor") then
    NoShowPredictor_obj (ModelManager.SKLEARN_AVAILABLE e)
      (NoShowPredictor.train (ModelManager.SKLEARN_AVAILABLE e) (ModelManager.fit e)
         NoShowPredictor.init ModelManager.no_show_seed (Some [0; 1; 1; 0]%Z))
  else PatientRiskScorer_obj.

(** The object [initialize] registers under a required name before its loop. *)
Definition default_object (e : ModelManager.env) (name : string) : model_obj :=
  if decide (name = "no_show_predictor") then
    NoShowPredictor_obj (ModelManager.SKLEARN_AVAILABLE e) NoShowPredictor.init
  else PatientRiskScorer_obj.


Definition required (name : string) : Prop :=
  name = "no_show_predictor" \/ name = "risk_scorer".

(** What one turn of the loop of [initialize] does to the part of the
    registry that belongs to its name. *)
Definition initialize_view (e : ModelManager.env) (name : string)
    (v : option model_obj * option (gmap string string) * option (option model_obj))
  : option model_obj * option (gmap string string) * option (option model_obj) :=
  match v with
  | (_, _, Some (Some obj)) =>
      (Some obj, Some (load_entry "disk" (ModelManager.utcnow e)), snd v)
  | (m, _, f) =>
      match ModelManager.baseline_error e name with
      | Some _ => v
      | None =>
          if decide (name = "no_show_predictor" \/ name = "risk_scorer") then
            (Some (baseline_object e name),
             Some (load_entry "baseline" (ModelManager.utcnow e)),
             if ModelManager.dump_ok e name then Some (Some (baseline_object e name)) else f)
          else (m, Some (load_entry "baseline" (ModelManager.utcnow e)), f)
      end
  end.


End Derived.

(** ** Further concrete inputs *)

Module Cases.

Definition young_row : record := {[ "age" := VInt 30 ]}.
Definition old_row : record := {[ "age" := VInt 70 ]}.

(** A storage directory that holds a scorer saved earlier. *)
Definition scorer_disk : gmap string (option model_obj) :=
  {[ "risk_scorer.joblib" := Some PatientRiskScorer_obj ]}.

(** A model that answers every record with the probability 3/2. *)
Definition overconfident_model : model_obj :=
  {| attr_is_trained := Some true;
     attr_predict_proba_single := Some (fun _ => Ok 1.5);
     attr_predict_proba := None;
     attr_predict := None;
     attr_predict_batch := None;
     attr_calculate_composite_risk := None;
     attr_categorize_risk_levels := None;
     attr_explain_factors := None;
     attr_last_confidence := None |}.




Definition connected_kafka : Main.KafkaClient :=
  {| Main.kafka_running := true; Main.kafka_producer := Some tt |}.

End Cases.

(** * Properties *)

(** ** Real-number facts about the built-ins *)

Section Reals_facts.

Lemma py_min_Rmin (a b : R) : py_min a b = Rmin a b.
Proof.
  unfold py_min, Rmin.
  destruct (Rlt_dec b a) as [Hlt | Hge], (Rle_dec a b) as [Hle | Hgt]; lra.
Qed.




Lemma exp_monotone (a b : R) : a <= b -> exp a <= exp b.
Proof.
  intros [Hlt | ->]; [left; now apply exp_increasing | right; reflexivity].
Qed.

Lemma logistic_monotone (m1 m2 : R) :
  m1 <= m2 -> NoShowPredictor.logistic m1 <= NoShowPredictor.logistic m2.
Proof.
  intros Hle. unfold NoShowPredictor.logistic.
  pose proof (exp_pos (- (m1 - 0.5))) as H1.
  pose proof (exp_pos (- (m2 - 0.5))) as H2.
  assert (He : exp (- (m2 - 0.5)) <= exp (- (m1 - 0.5))) by (apply exp_monotone; lra).
  unfold Rdiv. rewrite !Rmult_1_l.
  apply Rinv_le_contravar; lra.
Qed.

(** Squaring a two-sided bound on [exp x] bounds [exp (2 x)]. *)
Lemma exp_double_bounds (x l u l' u' : R) :
  0 < l -> l <= exp x <= u -> l' <= l * l -> u * u <= u' ->
  l' <= exp (2 * x) <= u'.
Proof.
  intros Hl [Hlo Hhi] Hl' Hu'.
  replace (2 * x) with (x + x) by lra. rewrite exp_plus.
  split; nra.
Qed.

Lemma exp_small_bounds (x : R) : 0 < x < 1 -> 1 + x <= exp x <= / (1 - x).
Proof.
  intros [H0 H1]. split; [apply exp_ineq1_le |].
  pose proof (exp_ineq1_le (- x)) as Hneg.
  rewrite exp_Ropp in Hneg.
  pose proof (exp_pos x) as Hpos.
  rewrite <- (Rinv_inv (exp x)).
  apply Rinv_le_contravar; lra.
Qed.

End Reals_facts.

(** [exp (1/2)] to three decimals, by ten squarings from [exp (1/2048)]. *)
Lemma exp_half_bounds : 1.6485 < exp (1 / 2) < 1.6490.
Proof.
  pose proof (exp_small_bounds (1 / 2048) ltac:(lra)) as [Hl Hu].
  assert (H0 : 1.0004882812 <= exp (1 / 2048) <= 1.0004885198).
  { split; [lra |]. eapply Rle_trans; [exact Hu |].
    apply Rmult_le_reg_r with (r := 1 - 1 / 2048); [lra |].
    rewrite Rinv_l by lra. lra. }
  clear Hl Hu.
  assert (H1 : 1.0009768008 <= exp (1 / 1024) <= 1.0009772783).
  { replace (1 / 1024) with (2 * (1 / 2048)) by lra.
    apply (exp_double_bounds _ 1.0004882812 1.0004885198); [lra | exact H0 | lra | lra]. }
  clear H0.
  assert (H2 : 1.0019545557 <= exp (1 / 512) <= 1.0019555117).
  { replace (1 / 512) with (2 * (1 / 1024)) by lra.
    apply (exp_double_bounds _ 1.0009768008 1.0009772783); [lra | exact H1 | lra | lra]. }
  clear H1.
  assert (H3 : 1.0039129316 <= exp (1 / 256) <= 1.0039148475).
  { replace (1 / 256) with (2 * (1 / 512)) by lra.
    apply (exp_double_bounds _ 1.0019545557 1.0019555117); [lra | exact H2 | lra | lra]. }
  clear H2.
  assert (H4 : 1.0078411742 <= exp (1 / 128) <= 1.0078450211).
  { replace (1 / 128) with (2 * (1 / 256)) by lra.
    apply (exp_double_bounds _ 1.0039129316 1.0039148475); [lra | exact H3 | lra | lra]. }
  clear H3.
  assert (H5 : 1.0157438324 <= exp (1 / 64) <= 1.0157515866).
  { replace (1 / 64) with (2 * (1 / 128)) by lra.
    apply (exp_double_bounds _ 1.0078411742 1.0078450211); [lra | exact H4 | lra | lra]. }
  clear H4.
  assert (H6 : 1.0317355330 <= exp (1 / 32) <= 1.0317512857).
  { replace (1 / 32) with (2 * (1 / 64)) by lra.
    apply (exp_double_bounds _ 1.0157438324 1.0157515866); [lra | exact H5 | lra | lra]. }
  clear H5.
  assert (H7 : 1.0644782100 <= exp (1 / 16) <= 1.0645107156).
  { replace (1 / 16) with (2 * (1 / 32)) by lra.
    apply (exp_double_bounds _ 1.0317355330 1.0317512857); [lra | exact H6 | lra | lra]. }
  clear H6.
  assert (H8 : 1.1331138595 <= exp (1 / 8) <= 1.1331830637).
  { replace (1 / 8) with (2 * (1 / 16)) by lra.
    apply (exp_double_bounds _ 1.0644782100 1.0645107156); [lra | exact H7 | lra | lra]. }
  clear H7.
  assert (H9 : 1.2839470185 <= exp (1 / 4) <= 1.2841038559).
  { replace (1 / 4) with (2 * (1 / 8)) by lra.
    apply (exp_double_bounds _ 1.1331138595 1.1331830637); [lra | exact H8 | lra | lra]. }
  clear H8.
  assert (H10 : 1.6485199463 <= exp (1 / 2) <= 1.6489227128).
  { replace (1 / 2) with (2 * (1 / 4)) by lra.
    apply (exp_double_bounds _ 1.2839470185 1.2841038559); [lra | exact H9 | lra | lra]. }
  clear H9.
  lra.
Qed.

(** ** The composite risk scorer *)

Section Scorer_facts.

Import PatientRiskScorer.



Lemma truediv_field (row : record) (k : string) (d : R) :
  is_Some (as_number (dict_get row k (VInt 0))) ->
  truediv (dict_get row k (VInt 0)) d = Ok (Spec.field row k / d).
Proof.
  intros [x Hx]. unfold truediv, Spec.field, number_value. rewrite Hx. reflexivity.
Qed.

Lemma numeric_row_fields (row : record) :
  Spec.numeric_row row ->
  is_Some (as_number (dict_get row "age" (VInt 0))) /\
  is_Some (as_number (dict_get row "cholesterol" (VInt 0))) /\
  is_Some (as_number (dict_get row "glucose_level" (VInt 0))) /\
  is_Some (as_number (dict_get row "previous_admissions" (VInt 0))).
Proof.
  unfold Spec.numeric_row, Spec.risk_fields. intros H.
  repeat (apply Forall_cons_1 in H; destruct H as [? H]). auto.
Qed.

Lemma nonneg_row_fields (row : record) :
  Spec.nonneg_row row ->
  0 <= Spec.field row "age" /\ 0 <= Spec.field row "cholesterol" /\
  0 <= Spec.field row "glucose_level" /\ 0 <= Spec.field row "previous_admissions".
Proof.
  unfold Spec.nonneg_row, Spec.risk_fields. intros H.
  repeat (apply Forall_cons_1 in H; destruct H as [? H]). auto.
Qed.

Lemma cardiovascular_row_spec (row : record) :
  Spec.numeric_row row -> cardiovascular_row row = Ok (Spec.cardiovascular row).
Proof.
  intros (Ha & Hc & _ & _)%numeric_row_fields. unfold cardiovascular_row.
  rewrite (truediv_field row "age" 100 Ha), (truediv_field row "cholesterol" 500 Hc).
  simpl. rewrite py_min_Rmin. reflexivity.
Qed.

Lemma diabetes_row_spec (row : record) :
  Spec.numeric_row row -> diabetes_row row = Ok (Spec.diabetes row).
Proof.
  intros (_ & _ & Hg & _)%numeric_row_fields. unfold diabetes_row.
  rewrite (truediv_field row "glucose_level" 300 Hg).
  simpl. rewrite py_min_Rmin. reflexivity.
Qed.

Lemma readmission_row_spec (row : record) :
  Spec.numeric_row row -> readmission_row row = Ok (Spec.readmission row).
Proof.
  intros (_ & _ & _ & Hp)%numeric_row_fields. unfold readmission_row.
  rewrite (truediv_field row "previous_admissions" 8 Hp).
  simpl. rewrite py_min_Rmin. reflexivity.
Qed.

Lemma map_result_pointwise {A B : Type} (f : A -> result B) (g : A -> B) (l : list A) :
  Forall (fun x => f x = Ok (g x)) l -> map_result f l = Ok (map g l).
Proof.
  induction 1 as [| x l Hx _ IH]; simpl; [reflexivity |].
  rewrite Hx, IH. reflexivity.
Qed.

Lemma mean3_map {A : Type} (f g h : A -> R) (l : list A) :
  mean3 (map f l) (map g l) (map h l) = map (fun x => (f x + g x + h x) / 3) l.
Proof. induction l as [| x l IH]; simpl; [reflexivity | now rewrite IH]. Qed.

Lemma sub_scores_spec (df : DataFrame) :
  Forall Spec.numeric_row (df_rows df) ->
  calculate_cardiovascular_risk df = Ok (map Spec.cardiovascular (df_rows df)) /\
  calculate_diabetes_risk df = Ok (map Spec.diabetes (df_rows df)) /\
  calculate_readmission_risk df = Ok (map Spec.readmission (df_rows df)).
Proof.
  intros Hnum.
  unfold calculate_cardiovascular_risk, calculate_diabetes_risk, calculate_readmission_risk.
  repeat split; apply map_result_pointwise;
    (eapply Forall_impl; [exact Hnum |]); simpl; intros row Hrow.
  - now apply cardiovascular_row_spec.
  - now apply diabetes_row_spec.
  - now apply readmission_row_spec.
Qed.

Lemma composite_risk_spec (df : DataFrame) :
  Forall Spec.numeric_row (df_rows df) ->
  calculate_composite_risk df = Ok (map Spec.composite (df_rows df)).
Proof.
  intros Hnum. destruct (sub_scores_spec df Hnum) as (Hcv & Hdi & Hrd).
  unfold calculate_composite_risk. rewrite Hcv, Hdi, Hrd. simpl.
  rewrite mean3_map. reflexivity.
Qed.

Lemma composite_le_1 (row : record) : Spec.composite row <= 1.
Proof.
  unfold Spec.composite, Spec.cardiovascular, Spec.diabetes, Spec.readmission.
  pose proof (Rmin_l 1 (Spec.field row "age" / 100 + Spec.field row "cholesterol" / 500)).
  pose proof (Rmin_l 1 (Spec.field row "glucose_level" / 300)).
  pose proof (Rmin_l 1 (Spec.field row "previous_admissions" / 8)).
  lra.
Qed.

Lemma composite_nonneg (row : record) : Spec.nonneg_row row -> 0 <= Spec.composite row.
Proof.
  intros (Ha & Hc & Hg & Hp)%nonneg_row_fields.
  unfold Spec.composite, Spec.cardiovascular, Spec.diabetes, Spec.readmission.
  assert (0 <= Rmin 1 (Spec.field row "age" / 100 + Spec.field row "cholesterol" / 500))
    by (apply Rmin_glb; lra).
  assert (0 <= Rmin 1 (Spec.field row "glucose_level" / 300)) by (apply Rmin_glb; lra).
  assert (0 <= Rmin 1 (Spec.field row "previous_admissions" / 8)) by (apply Rmin_glb; lra).
  lra.
Qed.

Lemma negative_age_row_numeric :
  Forall Spec.numeric_row (df_rows Examples.negative_age_frame).
Proof.
  apply Forall_cons_2; [| apply Forall_nil_2].
  unfold Spec.numeric_row, Spec.risk_fields.
  repeat apply Forall_cons_2; try apply Forall_nil_2; unfold dict_get; simpl; eauto.
Qed.

Lemma plain_row_numeric : Forall Spec.numeric_row (df_rows Examples.plain_frame).
Proof.
  apply Forall_cons_2; [| apply Forall_nil_2].
  unfold Spec.numeric_row, Spec.risk_fields.
  repeat apply Forall_cons_2; try apply Forall_nil_2; unfold dict_get; simpl; eauto.
Qed.

Lemma plain_row_nonneg : Forall Spec.nonneg_row (df_rows Examples.plain_frame).
Proof.
  apply Forall_cons_2; [| apply Forall_nil_2].
  unfold Spec.nonneg_row, Spec.risk_fields.
  repeat apply Forall_cons_2; try apply Forall_nil_2;
    unfold Spec.field, dict_get, number_value; simplify_map_eq; simpl; lra.
Qed.

End Scorer_facts.



(** C1, as amended.  On every table whose rows hold numbers in the four
    scorer fields, the composite scorer returns a score per row that is at
    most 1, and that lies in [0, 1] when no scorer field of the row is
    negative: the sub-scores are clamped above at 1 and not below. *)
Theorem composite_risk_bounds (df : DataFrame) :
  Forall Spec.numeric_row (df_rows df) ->
  exists scores,
    PatientRiskScorer.calculate_composite_risk df = Ok scores /\
    length scores = length (df_rows df) /\
    Forall (fun s => s <= 1) scores /\
    (Forall Spec.nonneg_row (df_rows df) -> Forall (fun s => 0 <= s <= 1) scores).
Proof.
  intros Hnum. exists (map Spec.composite (df_rows df)).
  split; [now apply composite_risk_spec |].
  split; [apply length_map |].
  split.
  - apply Forall_map, Forall_forall. intros row _. apply composite_le_1.
  - intros Hpos. apply Forall_map. eapply Forall_impl; [exact Hpos |].
    simpl. intros row Hrow. split; [now apply composite_nonneg | apply composite_le_1].
Qed.

Lemma composite_risk_bounds_witness :
  exists scores,
    PatientRiskScorer.calculate_composite_risk Examples.plain_frame = Ok scores /\
    Forall (fun s => 0 <= s <= 1) scores.
Proof.
  destruct (composite_risk_bounds Examples.plain_frame plain_row_numeric)
    as (scores & Hrun & _ & _ & Hunit).
  exists scores. split; [exact Hrun | exact (Hunit plain_row_nonneg)].
Defined.

(** C1, as stated, fails: a patient of age -100 scores -1/3. *)
Lemma composite_risk_negative :
  PatientRiskScorer.calculate_composite_risk Examples.negative_age_frame = Ok [- (1 / 3)] /\
  ~ Spec.composite_in_unit_interval Examples.negative_age_frame.
Proof.
  assert (Hrun : PatientRiskScorer.calculate_composite_risk Examples.negative_age_frame
                 = Ok [- (1 / 3)]).
  { rewrite (composite_risk_spec _ negative_age_row_numeric). simpl. do 2 f_equal.
    unfold Spec.composite, Spec.cardiovascular, Spec.diabetes, Spec.readmission.
    unfold Spec.field, dict_get, number_value. simplify_map_eq. simpl.
    unfold Rmin. repeat destruct (Rle_dec _ _); lra. }
  split; [exact Hrun |].
  intros Hclaim. specialize (Hclaim _ Hrun).
  apply Forall_cons_1 in Hclaim. destruct Hclaim as [[Hlo _] _]. lra.
Qed.

(** ** Labels and risk buckets *)

(** Case analysis on every threshold test in the goal, then arithmetic. *)
Ltac thresholds :=
  repeat match goal with
         | |- context [Rge_dec ?a ?b] => destruct (Rge_dec a b)
         end;
  repeat split; intros;
  try discriminate; try lra; try reflexivity;
  try (exfalso; lra).

Section Bucket_facts.


Lemma no_show_risk_spec (p : R) :
  (Api.no_show_risk p = "HIGH" <-> p >= 0.7) /\
  (Api.no_show_risk p = "MEDIUM" <-> 0.4 <= p < 0.7) /\
  (Api.no_show_risk p = "LOW" <-> p < 0.4) /\
  Api.no_show_risk p <> "CRITICAL".
Proof. unfold Api.no_show_risk. thresholds. Qed.

Lemma risk_of_spec (p : R) :
  (NoShowPredictor.risk_of p = "HIGH" <-> p >= 0.7) /\
  (NoShowPredictor.risk_of p = "MEDIUM" <-> 0.4 <= p < 0.7) /\
  (NoShowPredictor.risk_of p = "LOW" <-> p < 0.4) /\
  NoShowPredictor.risk_of p <> "CRITICAL".
Proof. unfold NoShowPredictor.risk_of. thresholds. Qed.

Lemma categorize_spec (s : R) :
  (PatientRiskScorer.categorize s = "CRITICAL" <-> s >= 0.85) /\
  (PatientRiskScorer.categorize s = "HIGH" <-> 0.7 <= s < 0.85) /\
  (PatientRiskScorer.categorize s = "MEDIUM" <-> 0.4 <= s < 0.7) /\
  (PatientRiskScorer.categorize s = "LOW" <-> s < 0.4).
Proof. unfold PatientRiskScorer.categorize. thresholds. Qed.

Lemma categorize_four (s : R) :
  In (PatientRiskScorer.categorize s) ["CRITICAL"; "HIGH"; "MEDIUM"; "LOW"].
Proof.
  unfold PatientRiskScorer.categorize.
  repeat match goal with
         | |- context [Rge_dec ?a ?b] => destruct (Rge_dec a b)
         end; simpl; auto.
Qed.


Lemma new_no_show_response_ok (p : R) (conf : option R) (fs : option (list string)) :
  0 <= p <= 1 ->
  Api.new_no_show_response (Api.no_show_label p) p (Api.no_show_risk p) conf fs =
    Ok (Api.mk_no_show_response (Api.no_show_label p) p (Api.no_show_risk p) conf fs).
Proof.
  intros [Hlo Hhi]. unfold Api.new_no_show_response.
  destruct (decide (0 ≤ Api.no_show_label p ≤ 1)%Z) as [_ | Hbad].
  - destruct (Rle_dec 0 p); [| lra]. destruct (Rle_dec p 1); [reflexivity | lra].
  - exfalso. apply Hbad. unfold Api.no_show_label. destruct (Rge_dec p 0.5); lia.
Qed.






End Bucket_facts.



(** C5.  [categorize_risk_levels] maps every score to exactly one of four
    buckets: CRITICAL when s >= 0.85, HIGH when 0.7 <= s < 0.85, MEDIUM when
    0.4 <= s < 0.7 and LOW otherwise.  The scale differs from the 3-level
    scale of the no-show path, which never produces CRITICAL: a score of
    0.9 is CRITICAL here and HIGH there. *)
Theorem categorize_risk_levels_spec :
  (forall s : R,
     (PatientRiskScorer.categorize s = "CRITICAL" <-> s >= 0.85) /\
     (PatientRiskScorer.categorize s = "HIGH" <-> 0.7 <= s < 0.85) /\
     (PatientRiskScorer.categorize s = "MEDIUM" <-> 0.4 <= s < 0.7) /\
     (PatientRiskScorer.categorize s = "LOW" <-> ~ s >= 0.4) /\
     In (PatientRiskScorer.categorize s) ["CRITICAL"; "HIGH"; "MEDIUM"; "LOW"]) /\
  (forall scores : list R,
     PatientRiskScorer.categorize_risk_levels scores =
       map PatientRiskScorer.categorize scores /\
     length (PatientRiskScorer.categorize_risk_levels scores) = length scores) /\
  (PatientRiskScorer.categorize 0.9 = "CRITICAL" /\
   Api.no_show_risk 0.9 = "HIGH" /\ NoShowPredictor.risk_of 0.9 = "HIGH") /\
  (forall p : R,
     Api.no_show_risk p <> "CRITICAL" /\ NoShowPredictor.risk_of p <> "CRITICAL").
Proof.
  split; [| split; [| split]].
  - intros s. destruct (categorize_spec s) as (? & ? & ? & Hlow).
    repeat split; try tauto; try apply categorize_four.
    + intros Hs Hge. apply Hlow in Hs. lra.
    + intros Hs. apply Hlow. lra.
  - intros scores. unfold PatientRiskScorer.categorize_risk_levels.
    split; [reflexivity | apply length_map].
  - unfold PatientRiskScorer.categorize, Api.no_show_risk, NoShowPredictor.risk_of.
    thresholds.
  - intros p. split; [apply no_show_risk_spec | apply risk_of_spec].
Qed.

(** ** Single-record and batch no-show probabilities *)

Section Probability_facts.

Import NoShowPredictor.

Lemma values_lookup (x : record) (v : value) :
  In v (dict_values x) <-> exists k, x !! k = Some v.
Proof.
  unfold dict_values. rewrite <- list_elem_of_In, list_elem_of_fmap. split.
  - intros ([k v'] & -> & Hin). exists k. now apply elem_of_map_to_list.
  - intros (k & Hk). exists (k, v). split; [reflexivity | now apply elem_of_map_to_list].
Qed.

Lemma values_nonempty (x : record) : x <> ∅ -> dict_values x <> [].
Proof.
  intros Hne Hnil. apply Hne. apply map_to_list_empty_iff.
  unfold dict_values in Hnil. now apply fmap_nil_inv in Hnil.
Qed.

(** The values the source keeps and sums are the numeric values. *)
Lemma filter_numeric (l : list value) :
  let kept := omap (fun v => if isinstance_int_float v then as_number v else None) l in
  py_sum (List.filter isinstance_int_float l) = fold_right Rplus 0 kept /\
  length (List.filter isinstance_int_float l) = length kept.
Proof.
  induction l as [| v l [IHs IHl]]; simpl; [auto |].
  destruct v; simpl; auto; unfold number_value; simpl; rewrite IHs, IHl; auto.
Qed.

Lemma predict_proba_single_cases (x : record) :
  predict_proba_single x =
    match Spec.numeric_values x with
    | [] => 0.1
    | _ :: _ => logistic (Spec.mean (Spec.numeric_values x))
    end.
Proof.
  unfold predict_proba_single, Spec.numeric_values, Spec.mean.
  destruct (filter_numeric (dict_values x)) as [Hs Hl]. cbv zeta in Hs, Hl.
  destruct (List.filter isinstance_int_float (dict_values x)) as [| v vals] eqn:Hf;
    destruct (omap _ (dict_values x)) as [| r rs] eqn:Ho; try discriminate Hl.
  - reflexivity.
  - rewrite Hs, Hl. reflexivity.
Qed.



Lemma numeric_values_bools (l : list value) :
  (forall v, In v l -> exists b, v = VBool b) ->
  omap (fun v => if isinstance_int_float v then as_number v else None) l =
    map number_value l /\
  Forall (fun r => 0 <= r <= 1) (map number_value l).
Proof.
  induction l as [| v l IH]; intros Hall; simpl; [split; [reflexivity | constructor] |].
  destruct (Hall v (or_introl eq_refl)) as [b ->].
  destruct IH as [IHo IHf]; [intros w Hw; apply Hall; now right |].
  simpl. split; [f_equal; exact IHo |].
  constructor; [| exact IHf]. unfold number_value. simpl. destruct b; lra.
Qed.

Lemma mean_unit (l : list R) :
  l <> [] -> Forall (fun r => 0 <= r <= 1) l -> 0 <= Spec.mean l <= 1.
Proof.
  intros Hne Hall. unfold Spec.mean.
  assert (Hsum : 0 <= fold_right Rplus 0 l <= INR (length l)).
  { clear Hne. induction Hall as [| r l [Hr0 Hr1] _ IH]; [simpl; lra |].
    change (length (r :: l)) with (S (length l)). rewrite S_INR. simpl. lra. }
  assert (Hlen : 0 < INR (length l)).
  { destruct l; [contradiction |]. apply lt_0_INR. simpl. lia. }
  split.
  - apply Rmult_le_reg_r with (r := INR (length l)); [exact Hlen |].
    unfold Rdiv. rewrite Rmult_assoc, Rinv_l by lra. lra.
  - apply Rmult_le_reg_r with (r := INR (length l)); [exact Hlen |].
    unfold Rdiv. rewrite Rmult_assoc, Rinv_l by lra. lra.
Qed.

Lemma mean_zeros (l : list R) : Forall (fun r => r = 0) l -> Spec.mean l = 0.
Proof.
  intros Hall. unfold Spec.mean.
  assert (Hsum : fold_right Rplus 0 l = 0).
  { induction Hall as [| r l -> _ IH]; simpl; lra. }
  rewrite Hsum. unfold Rdiv. apply Rmult_0_l.
Qed.

Lemma logistic_zero : logistic 0 = 1 / (1 + exp 0.5).
Proof. unfold logistic. do 3 f_equal. lra. Qed.

Lemma logistic_zero_bounds : 0.3775 < logistic 0 < 0.3776.
Proof.
  rewrite logistic_zero. replace 0.5 with (1 / 2) by lra.
  destruct exp_half_bounds as [Hlo Hhi].
  split.
  - apply Rmult_lt_reg_r with (r := 1 + exp (1 / 2)); [lra |].
    unfold Rdiv. rewrite Rmult_assoc, Rinv_l by lra. lra.
  - apply Rmult_lt_reg_r with (r := 1 + exp (1 / 2)); [lra |].
    unfold Rdiv. rewrite Rmult_assoc, Rinv_l by lra. lra.
Qed.

Lemma map_lookup {A B : Type} (f : A -> B) (l : list A) (i : nat) :
  map f l !! i = f <$> l !! i.
Proof.
  revert i. induction l as [| a l IH]; intros [| i]; simpl; try reflexivity. apply IH.
Qed.

Lemma predict_proba_heuristic (sk : bool) (self : t) (X : table) :
  Spec.heuristic_path sk self ->
  predict_proba sk self X = map logistic (heuristic_vals X).
Proof.
  unfold predict_proba. intros [-> | ->]; [reflexivity |]. now destruct sk.
Qed.

End Probability_facts.



(** C7.  On the heuristic path of [predict_proba] there is one probability
    per row, and it does not decrease with the row mean: of two rows with
    means m1 <= m2 the probabilities satisfy p1 <= p2.  The same holds
    between two records scored by [predict_proba_single] that both have
    numeric values. *)
Theorem heuristic_probability_monotone :
  (forall sk self X,
     Spec.heuristic_path sk self ->
     length (NoShowPredictor.predict_proba sk self X) = table_len X /\
     forall i j m1 m2 p1 p2,
       NoShowPredictor.heuristic_vals X !! i = Some m1 ->
       NoShowPredictor.heuristic_vals X !! j = Some m2 ->
       NoShowPredictor.predict_proba sk self X !! i = Some p1 ->
       NoShowPredictor.predict_proba sk self X !! j = Some p2 ->
       m1 <= m2 -> p1 <= p2) /\
  (forall x1 x2 : record,
     Spec.numeric_values x1 <> [] -> Spec.numeric_values x2 <> [] ->
     Spec.mean (Spec.numeric_values x1) <= Spec.mean (Spec.numeric_values x2) ->
     NoShowPredictor.predict_proba_single x1 <= NoShowPredictor.predict_proba_single x2).
Proof.
  split.
  - intros sk self X Hpath. rewrite (predict_proba_heuristic sk self X Hpath). split.
    + rewrite length_map. destruct X as [df | rows]; simpl.
      * destruct (select_dtypes_number df); [apply repeat_length | apply length_map].
      * apply length_map.
    + intros i j m1 m2 p1 p2 Hi Hj. rewrite !map_lookup, Hi, Hj. simpl.
      intros [= <-] [= <-] Hle. now apply logistic_monotone.
  - intros x1 x2 H1 H2 Hle. rewrite !predict_proba_single_cases.
    destruct (Spec.numeric_values x1); [contradiction |].
    destruct (Spec.numeric_values x2); [contradiction |].
    now apply logistic_monotone.
Qed.

Lemma heuristic_probability_monotone_witness :
  exists p1 p2,
    NoShowPredictor.predict_proba false NoShowPredictor.init (Array [[0]; [1]]) = [p1; p2] /\
    p1 <= p2.
Proof.
  exists (NoShowPredictor.logistic (fold_right Rplus 0 [0] / INR 1)),
         (NoShowPredictor.logistic (fold_right Rplus 0 [1] / INR 1)).
  split; [reflexivity |].
  refine (proj2 (proj1 heuristic_probability_monotone false NoShowPredictor.init
                   (Array [[0]; [1]]) (or_introl eq_refl))
            0%nat 1%nat _ _ _ _ eq_refl eq_refl eq_refl eq_refl _).
  simpl. lra.
Defined.

(** C10.  A boolean passes the numeric check of [predict_proba_single] and
    counts as 1.0 when true and 0.0 when false.  So a record whose values
    are all booleans does not get the 0.1 default: it gets the logistic
    squashing of the mean of its booleans, and a record whose values are
    all [False] gets 1 / (1 + e^0.5), which is 0.3775 to four decimals. *)
Theorem booleans_are_numeric :
  (forall b, isinstance_int_float (VBool b) = true /\
             number_value (VBool b) = Spec.bool_number b) /\
  (Spec.bool_number true = 1 /\ Spec.bool_number false = 0) /\
  (forall x : record,
     x <> ∅ -> (forall k v, x !! k = Some v -> exists b, v = VBool b) ->
     Spec.numeric_values x = map number_value (dict_values x) /\
     NoShowPredictor.predict_proba_single x =
       NoShowPredictor.logistic (Spec.mean (map number_value (dict_values x))) /\
     NoShowPredictor.predict_proba_single x <> 0.1) /\
  (forall x : record,
     x <> ∅ -> (forall k v, x !! k = Some v -> v = VBool false) ->
     NoShowPredictor.predict_proba_single x = 1 / (1 + exp 0.5) /\
     0.3775 < NoShowPredictor.predict_proba_single x < 0.3776).
Proof.
  assert (Hbools : forall x : record,
     x <> ∅ -> (forall k v, x !! k = Some v -> exists b, v = VBool b) ->
     Spec.numeric_values x = map number_value (dict_values x) /\
     Forall (fun r => 0 <= r <= 1) (map number_value (dict_values x)) /\
     NoShowPredictor.predict_proba_single x =
       NoShowPredictor.logistic (Spec.mean (map number_value (dict_values x)))).
  { intros x Hne Hall.
    destruct (numeric_values_bools (dict_values x)) as [Hnv Hunit].
    { intros v (k & Hk)%values_lookup. eauto. }
    fold (Spec.numeric_values x) in Hnv.
    split; [exact Hnv |]. split; [exact Hunit |].
    rewrite predict_proba_single_cases, Hnv.
    pose proof (values_nonempty x Hne) as Hvals.
    destruct (dict_values x); [contradiction | reflexivity]. }
  split; [intros b; split; reflexivity |].
  split; [split; reflexivity |].
  split.
  - intros x Hne Hall. destruct (Hbools x Hne Hall) as (Hnv & Hunit & Hp).
    split; [exact Hnv |]. split; [exact Hp |].
    rewrite Hp.
    assert (Hm : 0 <= Spec.mean (map number_value (dict_values x)) <= 1).
    { apply mean_unit; [| exact Hunit].
      pose proof (values_nonempty x Hne). destruct (dict_values x); [contradiction | discriminate]. }
    pose proof (logistic_monotone 0 _ (proj1 Hm)).
    pose proof logistic_zero_bounds. lra.
  - intros x Hne Hall.
    destruct (Hbools x Hne) as (_ & _ & Hp); [intros k v Hk; exists false; eauto |].
    assert (Hz : Spec.mean (map number_value (dict_values x)) = 0).
    { apply mean_zeros, Forall_map, Forall_forall.
      intros v Hv%list_elem_of_In. apply values_lookup in Hv as (k & Hk).
      rewrite (Hall k v Hk). reflexivity. }
    rewrite Hp, Hz. split; [apply logistic_zero | apply logistic_zero_bounds].
Qed.

Lemma booleans_are_numeric_witness :
  NoShowPredictor.predict_proba_single Examples.weekday_record = 1 / (1 + exp 0.5) /\
  NoShowPredictor.predict_proba_single Examples.weekday_record <> 0.1.
Proof.
  assert (Hne : Examples.weekday_record <> ∅).
  { intros H. apply (f_equal (fun m : record => m !! "is_weekend")) in H. discriminate H. }
  split.
  - apply (proj2 (proj2 (proj2 booleans_are_numeric)) Examples.weekday_record Hne).
    intros k v Hk. unfold Examples.weekday_record in Hk.
    apply lookup_singleton_Some in Hk as [_ <-]. reflexivity.
  - apply (proj1 (proj2 (proj2 booleans_are_numeric)) Examples.weekday_record Hne).
    intros k v Hk. unfold Examples.weekday_record in Hk.
    apply lookup_singleton_Some in Hk as [_ <-]. eauto.
Defined.

(** ** The registry *)

Section Registry_facts.

Import ModelManager.

Lemma health_loop_spec (self : t) (required : list string) :
  health_loop self required = true <->
  Forall (fun name => exists m, models self !! name = Some m /\ attr_is_trained m = Some true)
    required.
Proof.
  induction required as [| name rest IH]; simpl.
  - split; [constructor | reflexivity].
  - destruct (models self !! name) as [m |] eqn:Hm.
    + destruct (attr_is_trained m) as [[|] |] eqn:Ht; simpl.
      * rewrite IH. split.
        -- intros Hrest. apply Forall_cons_2; eauto.
        -- intros [_ Hrest]%Forall_cons_1. exact Hrest.
      * split; [discriminate |].
        intros [(m' & Hm' & Ht') _]%Forall_cons_1. congruence.
      * split; [discriminate |].
        intros [(m' & Hm' & Ht') _]%Forall_cons_1. congruence.
    + split; [discriminate |].
      intros [(m' & Hm' & _) _]%Forall_cons_1. congruence.
Qed.

Lemma metadata_complete_dom (self : t) :
  metadata_complete self <-> dom (models self) ⊆ dom (model_metadata self).
Proof.
  unfold metadata_complete. split.
  - intros H name Hin%elem_of_dom. apply elem_of_dom. auto.
  - intros H name Hin. apply elem_of_dom, H, elem_of_dom. exact Hin.
Qed.

Lemma stamp_dom (md : gmap string (gmap string string)) (name key val : string) :
  dom (stamp md name key val) = {[ name ]} ∪ dom md.
Proof. unfold stamp. apply dom_insert_L. Qed.

Lemma save_model_dom (e : env) (self : t) (name : string) (model : model_obj) :
  models (save_model e self name model) = models self /\
  dom (model_metadata self) ⊆ dom (model_metadata (save_model e self name model)).
Proof.
  unfold save_model. destruct (dump_ok e name); simpl; [| auto].
  rewrite stamp_dom. split; [reflexivity | set_solver].
Qed.

Lemma get_model_dom (e : env) (self : t) (name : string) :
  models (snd (get_model e self name)) = models self /\
  dom (model_metadata self) ⊆ dom (model_metadata (snd (get_model e self name))).
Proof.
  unfold get_model. destruct (models self !! name); simpl; [| auto].
  rewrite stamp_dom. split; [reflexivity | set_solver].
Qed.

Lemma get_model_stamps (e : env) (self : t) (name : string) (m : model_obj) :
  models self !! name = Some m ->
  fst (get_model e self name) = Ok m /\
  is_Some (model_metadata (snd (get_model e self name)) !! name).
Proof.
  intros Hm. unfold get_model. rewrite Hm. simpl. split; [reflexivity |].
  unfold stamp. rewrite lookup_insert_eq. eauto.
Qed.

Lemma cleanup_dom (e : env) (self : t) :
  models (cleanup e self) = models self /\
  dom (model_metadata self) ⊆ dom (model_metadata (cleanup e self)).
Proof.
  unfold cleanup. generalize (map_to_list (models self)) as items.
  intros items. revert self.
  induction items as [| [name model] items IH]; intros self; simpl; [auto |].
  destruct (IH (save_model e self name model)) as [Hm Hd].
  destruct (save_model_dom e self name model) as [Hm' Hd'].
  rewrite Hm, Hm'. split; [reflexivity | set_solver].
Qed.

Lemma train_baseline_model_dom (e : env) (self self' : t) (name : string) :
  train_baseline_model e self name = Ok self' ->
  dom (models self') ⊆ {[ name ]} ∪ dom (models self) /\
  dom (model_metadata self) ⊆ dom (model_metadata self') /\
  failed_baselines self' = failed_baselines self.
Proof.
  unfold train_baseline_model. destruct (baseline_error e name); [discriminate |].
  repeat case_decide; intros [= <-].
  - unfold save_model. destruct (dump_ok e name); simpl;
      rewrite ?stamp_dom, dom_insert_L; repeat split; set_solver.
  - unfold save_model. destruct (dump_ok e name); simpl;
      rewrite ?stamp_dom, dom_insert_L; repeat split; set_solver.
  - repeat split; set_solver.
Qed.

(** A turn of the loop of [initialize] either logs one failed baseline or
    leaves [name] with a metadata entry. *)
Lemma initialize_one_cases (e : env) (self : t) (name : string) :
  (failed_baselines (initialize_one e self name) = failed_baselines self /\
   dom (models (initialize_one e self name)) ⊆ {[ name ]} ∪ dom (models self) /\
   {[ name ]} ∪ dom (model_metadata self) ⊆ dom (model_metadata (initialize_one e self name)))
  \/ failed_baselines (initialize_one e self name) = (failed_baselines self ++ [name])%list.
Proof.
  unfold initialize_one.
  destruct (load_model_from_disk self name) as [loaded |].
  - left. simpl. rewrite !dom_insert_L. repeat split; set_solver.
  - destruct (train_baseline_model e self name) as [self' | exc] eqn:Htrain.
    + left. apply train_baseline_model_dom in Htrain as (Hm & Hd & Hf).
      simpl. rewrite dom_insert_L. repeat split; [exact Hf | set_solver | set_solver].
    + right. reflexivity.
Qed.

Lemma initialize_one_failures (e : env) (self : t) (name : string) :
  (length (failed_baselines self) <= length (failed_baselines (initialize_one e self name)))%nat.
Proof.
  destruct (initialize_one_cases e self name) as [(-> & _) | ->]; [lia |].
  rewrite length_app. lia.
Qed.

Lemma initialize_loop_failures (e : env) (names : list string) (self : t) :
  (length (failed_baselines self) <=
   length (failed_baselines (foldl (initialize_one e) self names)))%nat.
Proof.
  revert self. induction names as [| name names IH]; intros self; simpl; [lia |].
  pose proof (IH (initialize_one e self name)).
  pose proof (initialize_one_failures e self name). lia.
Qed.

Lemma initialize_loop_dom (e : env) (names : list string) (self : t) :
  length (failed_baselines (foldl (initialize_one e) self names)) =
    length (failed_baselines self) ->
  dom (models (foldl (initialize_one e) self names)) ⊆ list_to_set names ∪ dom (models self) /\
  list_to_set names ∪ dom (model_metadata self) ⊆
    dom (model_metadata (foldl (initialize_one e) self names)).
Proof.
  revert self.
  induction names as [| name names IH]; intros self; simpl; [set_solver |].
  intros Hlen.
  pose proof (initialize_loop_failures e names (initialize_one e self name)) as Hrest.
  pose proof (initialize_one_failures e self name) as Hone.
  destruct (initialize_one_cases e self name) as [(Hf & Hm1 & Hd1) | Hf].
  - destruct (IH (initialize_one e self name)) as [Hm Hd]; [rewrite Hf; lia |].
    set_solver.
  - exfalso. rewrite Hf, length_app in Hrest. simpl in Hrest. lia.
Qed.

Lemma dict_keys_dom {V : Type} (d : gmap string V) : list_to_set (dict_keys d) = dom d.
Proof.
  apply set_eq. intros k. unfold dict_keys.
  rewrite elem_of_list_to_set, elem_of_dom, list_elem_of_fmap. split.
  - intros ([k' v] & -> & Hin). apply elem_of_map_to_list in Hin. simpl. eauto.
  - intros [v Hv]. exists (k, v). split; [reflexivity | now apply elem_of_map_to_list].
Qed.

Lemma initialize_failures (e : env) (self : t) :
  (length (failed_baselines self) <= length (failed_baselines (initialize e self)))%nat.
Proof. unfold initialize. etrans; [| apply initialize_loop_failures]. simpl. lia. Qed.

Lemma initialize_complete (e : env) (self : t) :
  length (failed_baselines (initialize e self)) = length (failed_baselines self) ->
  metadata_complete (initialize e self).
Proof.
  unfold initialize. intros Hlen. apply metadata_complete_dom.
  match goal with
  | |- context [foldl (initialize_one e) ?s1 ?ks] =>
      destruct (initialize_loop_dom e ks s1 Hlen) as [Hm Hd]
  end.
  rewrite dict_keys_dom in Hm, Hd. set_solver.
Qed.

Lemma save_model_failures (e : env) (self : t) (name : string) (model : model_obj) :
  failed_baselines (save_model e self name model) = failed_baselines self.
Proof. unfold save_model. now destruct (dump_ok e name). Qed.

Lemma get_model_failures (e : env) (self : t) (name : string) :
  failed_baselines (snd (get_model e self name)) = failed_baselines self.
Proof. unfold get_model. now destruct (models self !! name). Qed.

Lemma cleanup_failures (e : env) (self : t) :
  failed_baselines (cleanup e self) = failed_baselines self.
Proof.
  unfold cleanup. generalize (map_to_list (models self)) as items.
  intros items. revert self.
  induction items as [| [name model] items IH]; intros self; simpl; [reflexivity |].
  rewrite IH. apply save_model_failures.
Qed.

Lemma run_op_failures (e : env) (o : op) (self : t) :
  (length (failed_baselines self) <= length (failed_baselines (run_op e self o)))%nat.
Proof.
  destruct o as [| name | name model |]; simpl.
  - apply initialize_failures.
  - rewrite get_model_failures. lia.
  - rewrite save_model_failures. lia.
  - rewrite cleanup_failures. lia.
Qed.

Lemma run_ops_failures (ops : list (env * op)) (self : t) :
  (length (failed_baselines self) <= length (failed_baselines (run_ops self ops)))%nat.
Proof.
  unfold run_ops. revert self.
  induction ops as [| [e o] ops IH]; intros self; simpl; [lia |].
  pose proof (IH (run_op e self o)). pose proof (run_op_failures e o self). lia.
Qed.

Lemma run_op_complete (e : env) (o : op) (self : t) :
  length (failed_baselines (run_op e self o)) = length (failed_baselines self) ->
  metadata_complete self -> metadata_complete (run_op e self o).
Proof.
  intros Hlen Hinv. destruct o as [| name | name model |]; simpl in *.
  - now apply initialize_complete.
  - apply metadata_complete_dom. apply metadata_complete_dom in Hinv.
    destruct (get_model_dom e self name) as [-> Hd]. set_solver.
  - apply metadata_complete_dom. apply metadata_complete_dom in Hinv.
    destruct (save_model_dom e self name model) as [-> Hd]. set_solver.
  - apply metadata_complete_dom. apply metadata_complete_dom in Hinv.
    destruct (cleanup_dom e self) as [-> Hd]. set_solver.
Qed.

Lemma run_ops_complete (ops : list (env * op)) (self : t) :
  length (failed_baselines (run_ops self ops)) = length (failed_baselines self) ->
  metadata_complete self -> metadata_complete (run_ops self ops).
Proof.
  unfold run_ops. revert self.
  induction ops as [| [e o] ops IH]; intros self Hlen Hinv; simpl in *; [exact Hinv |].
  pose proof (run_ops_failures ops (run_op e self o)) as Hrest. unfold run_ops in Hrest.
  pose proof (run_op_failures e o self) as Hone.
  apply IH; [lia |]. apply run_op_complete; [lia | exact Hinv].
Qed.

Lemma init_complete (disk : gmap string (option model_obj)) : metadata_complete (init disk).
Proof. intros name [m Hm]. simpl in Hm. rewrite lookup_empty in Hm. discriminate. Qed.

(** Where no baseline training can raise, none is logged as failed. *)
Lemma initialize_one_trained (e : env) (self : t) (name : string) :
  baseline_error e name = None ->
  failed_baselines (initialize_one e self name) = failed_baselines self.
Proof.
  intros Hno. unfold initialize_one.
  destruct (load_model_from_disk self name); [reflexivity |].
  destruct (train_baseline_model e self name) as [self' | exc] eqn:Htrain.
  - apply train_baseline_model_dom in Htrain as (_ & _ & Hf). exact Hf.
  - unfold train_baseline_model in Htrain. rewrite Hno in Htrain.
    repeat case_decide; discriminate.
Qed.

Lemma initialize_loop_trained (e : env) (names : list string) (self : t) :
  (forall name, baseline_error e name = None) ->
  failed_baselines (foldl (initialize_one e) self names) = failed_baselines self.
Proof.
  intros Hno. revert self.
  induction names as [| name names IH]; intros self; [reflexivity |].
  cbn [foldl fold_left]. rewrite IH. now apply initialize_one_trained.
Qed.

Lemma initialize_trained (e : env) (self : t) :
  (forall name, baseline_error e name = None) ->
  failed_baselines (initialize e self) = failed_baselines self.
Proof.
  intros Hno. unfold initialize. now rewrite initialize_loop_trained.
Qed.

(** When nothing loads and baseline training raises, a turn of the loop of
    [initialize] only logs the failure. *)
Lemma initialize_one_failed (e : env) (self : t) (name : string) (exc : exn) :
  files self = ∅ -> baseline_error e name = Some exc ->
  initialize_one e self name = warn_failed_baseline self name.
Proof.
  intros Hfiles Herr. unfold initialize_one, load_model_from_disk, train_baseline_model.
  rewrite Hfiles, lookup_empty, Herr. reflexivity.
Qed.

Lemma initialize_loop_failed (names : list string) (self : t) :
  files self = ∅ ->
  models (foldl (initialize_one Examples.failing_env) self names) = models self /\
  model_metadata (foldl (initialize_one Examples.failing_env) self names) =
    model_metadata self.
Proof.
  revert self. induction names as [| name names IH]; intros self Hfiles; [auto |].
  cbn [foldl fold_left].
  erewrite initialize_one_failed; [| exact Hfiles | reflexivity].
  destruct (IH (warn_failed_baseline self name) Hfiles) as [-> ->]. auto.
Qed.

Lemma initialize_failed (self : t) :
  files self = ∅ ->
  models (initialize Examples.failing_env self) =
    <["risk_scorer" := PatientRiskScorer_obj]>
      (<["no_show_predictor" := NoShowPredictor_obj false NoShowPredictor.init]>
         (models self)) /\
  model_metadata (initialize Examples.failing_env self) = model_metadata self.
Proof.
  intros Hfiles. unfold initialize.
  match goal with
  | |- context [foldl _ ?s1 ?ks] =>
      destruct (initialize_loop_failed ks s1 Hfiles) as [-> ->]
  end.
  auto.
Qed.

End Registry_facts.

(** C8.  [health_check] answers healthy exactly when each of
    "no_show_predictor" and "risk_scorer" is present in the mapping with a
    true trained flag; when either is absent or untrained it answers
    unhealthy, whatever the state of the other. *)
Theorem health_check_spec (self : ModelManager.t) :
  (ModelManager.health_check self = true <->
   (exists m, ModelManager.models self !! "no_show_predictor" = Some m /\
              attr_is_trained m = Some true) /\
   (exists m, ModelManager.models self !! "risk_scorer" = Some m /\
              attr_is_trained m = Some true)) /\
  (forall name,
     name = "no_show_predictor" \/ name = "risk_scorer" ->
     ModelManager.models self !! name = None \/
     (exists m, ModelManager.models self !! name = Some m /\ attr_is_trained m <> Some true) ->
     ModelManager.health_check self = false).
Proof.
  assert (Hiff : ModelManager.health_check self = true <->
   (exists m, ModelManager.models self !! "no_show_predictor" = Some m /\
              attr_is_trained m = Some true) /\
   (exists m, ModelManager.models self !! "risk_scorer" = Some m /\
              attr_is_trained m = Some true)).
  { unfold ModelManager.health_check. rewrite health_loop_spec. split.
    - intros [H1 [H2 _]%Forall_cons_1]%Forall_cons_1. auto.
    - intros [H1 H2]. repeat apply Forall_cons_2; auto. }
  split; [exact Hiff |].
  intros name Hname Hbad.
  destruct (ModelManager.health_check self) eqn:Hh; [| reflexivity].
  exfalso. destruct (proj1 Hiff eq_refl) as [(m1 & Hm1 & Ht1) (m2 & Hm2 & Ht2)].
  destruct Hname as [-> | ->], Hbad as [Hnone | (m & Hm & Ht)]; congruence.
Qed.

Lemma health_check_spec_witness :
  ModelManager.health_check Examples.healthy_manager = true /\
  ModelManager.health_check
    (Examples.manager_with "risk_scorer" PatientRiskScorer_obj) = false.
Proof.
  split.
  - apply (proj1 (health_check_spec Examples.healthy_manager)).
    unfold Examples.healthy_manager. simpl. split.
    + eexists. split; [apply lookup_insert_eq |]. reflexivity.
    + eexists. split.
      * rewrite lookup_insert_ne by discriminate. apply lookup_singleton_eq.
      * reflexivity.
  - apply (proj2 (health_check_spec _) "no_show_predictor"); [now left |].
    left. simpl. apply lookup_singleton_ne. discriminate.
Defined.

(** C9, as amended.  After any sequence of registry operations
    (initialize, get_model, save_model, cleanup) on a fresh registry in
    which no baseline training raised, every name of the model mapping has
    a metadata entry; and a successful [get_model] leaves an entry for its
    name in any case. *)
Theorem metadata_invariant (disk : gmap string (option model_obj))
    (ops : list (ModelManager.env * ModelManager.op)) :
  Spec.no_baseline_failed (ModelManager.run_ops (ModelManager.init disk) ops) ->
  ModelManager.metadata_complete (ModelManager.run_ops (ModelManager.init disk) ops) /\
  (forall e self name m,
     ModelManager.models self !! name = Some m ->
     fst (ModelManager.get_model e self name) = Ok m /\
     is_Some (ModelManager.model_metadata (snd (ModelManager.get_model e self name)) !! name)).
Proof.
  unfold Spec.no_baseline_failed. intros Hok. split.
  - apply run_ops_complete; [rewrite Hok; reflexivity | apply init_complete].
  - intros e self name m. apply get_model_stamps.
Qed.

Lemma metadata_invariant_witness :
  ModelManager.metadata_complete
    (ModelManager.run_ops (ModelManager.init ∅)
       [(Examples.working_env, ModelManager.OpInitialize);
        (Examples.working_env, ModelManager.OpGetModel "risk_scorer")]).
Proof.
  refine (proj1 (metadata_invariant ∅ _ _)).
  unfold Spec.no_baseline_failed. simpl.
  rewrite get_model_failures. now rewrite initialize_trained.
Defined.

(** C9, as stated, fails: on a fresh registry with an empty storage
    directory, an initialization whose baseline trainings raise leaves both
    names registered and the metadata mapping empty. *)
Lemma metadata_missing_after_failed_initialize :
  is_Some (ModelManager.models Examples.after_failed_initialize !! "no_show_predictor") /\
  is_Some (ModelManager.models Examples.after_failed_initialize !! "risk_scorer") /\
  ModelManager.model_metadata Examples.after_failed_initialize = ∅ /\
  ~ ModelManager.metadata_complete Examples.after_failed_initialize.
Proof.
  change Examples.after_failed_initialize
    with (ModelManager.initialize Examples.failing_env (ModelManager.init ∅)).
  unfold ModelManager.metadata_complete.
  match goal with
  | |- context [ModelManager.initialize _ ?st] =>
      destruct (initialize_failed st eq_refl) as [Hm Hd]
  end.
  rewrite Hm, Hd.
  change (ModelManager.models (ModelManager.init ∅)) with (∅ : gmap string model_obj).
  change (ModelManager.model_metadata (ModelManager.init ∅))
    with (∅ : gmap string (gmap string string)).
  assert (H1 : is_Some ((<["risk_scorer" := PatientRiskScorer_obj]>
                 (<["no_show_predictor" := NoShowPredictor_obj false NoShowPredictor.init]>
                    (∅ : gmap string model_obj))) !! "no_show_predictor")).
  { rewrite lookup_insert_ne by discriminate. rewrite lookup_insert_eq. eauto. }
  split; [exact H1 |].
  split; [rewrite lookup_insert_eq; eauto |].
  split; [reflexivity |].
  intros Hinv. destruct (Hinv "no_show_predictor" H1) as [md Hmd].
  rewrite lookup_empty in Hmd. discriminate Hmd.
Qed.

(** ** The error mapping of the endpoints *)

Section Endpoint_facts.

Variable e : ModelManager.env.
Variable pd : list record -> DataFrame.

Lemma bind_Raise {A B : Type} (c : result A) (k : A -> result B) (exc : exn) :
  c = Raise exc -> bind c k = Raise exc.
Proof. intros ->. reflexivity. Qed.

Lemma predict_no_show_raised (mgr : ModelManager.t) (payload : Api.NoShowPredictionRequest)
    (model : model_obj) (exc : exn) :
  ModelManager.models mgr !! "no_show_predictor" = Some model ->
  Api.no_show_try pd model (Api.no_show_data payload) = Raise exc ->
  fst (Api.predict_no_show e pd (Some mgr) payload) = Spec.prediction_error exc.
Proof.
  intros Hm Htry. unfold Api.predict_no_show, ModelManager.get_model.
  rewrite Hm, Htry. unfold Spec.prediction_error. simpl. now destruct (exn_class exc).
Qed.

Lemma predict_risk_raised (mgr : ModelManager.t) (payload : Api.RiskScoreRequest)
    (model : model_obj) (exc : exn) :
  ModelManager.models mgr !! "risk_scorer" = Some model ->
  Api.risk_try pd model (Api.patient_data payload) = Raise exc ->
  fst (Api.predict_risk e pd (Some mgr) payload) = Spec.prediction_error exc.
Proof.
  intros Hm Htry. unfold Api.predict_risk, ModelManager.get_model.
  rewrite Hm, Htry. unfold Spec.prediction_error. simpl. now destruct (exn_class exc).
Qed.

Lemma predict_batch_raised (mgr : ModelManager.t) (payload : Api.BatchPredictRequest)
    (model : model_obj) (exc : exn) :
  ModelManager.models mgr !! Api.model_name payload = Some model ->
  Api.batch_try pd model (Api.data payload) = Raise exc ->
  fst (Api.predict_batch e pd (Some mgr) payload) = Spec.prediction_error exc.
Proof.
  intros Hm Htry. unfold Api.predict_batch, ModelManager.get_model.
  rewrite Hm, Htry. unfold Spec.prediction_error. simpl. now destruct (exn_class exc).
Qed.

(** An exception of the model's own prediction call leaves the [try]
    block as it is. *)
Lemma no_show_try_propagates (model : model_obj) (d : record) (exc : exn) :
  Api.no_show_prob pd model d = Raise exc -> Api.no_show_try pd model d = Raise exc.
Proof. intros H. unfold Api.no_show_try. now apply bind_Raise. Qed.

Lemma risk_try_propagates (model : model_obj) (d : record) (exc : exn) :
  call_method "calculate_composite_risk" (attr_calculate_composite_risk model) (pd [d])
    = Raise exc ->
  Api.risk_try pd model d = Raise exc.
Proof. intros H. unfold Api.risk_try. now apply bind_Raise. Qed.

Lemma batch_try_propagates (model : model_obj) (rows : list record) (exc : exn) :
  match attr_predict_batch model with
  | Some f => f (pd rows) = Raise exc
  | None =>
      call_method "predict" (attr_predict model) (pd rows) = Raise exc \/
      exists preds g,
        call_method "predict" (attr_predict model) (pd rows) = Ok preds /\
        attr_predict_proba model = Some g /\ g (pd rows) = Raise exc
  end ->
  Api.batch_try pd model rows = Raise exc.
Proof.
  unfold Api.batch_try. destruct (attr_predict_batch model) as [f |].
  - intros H. now apply bind_Raise.
  - intros [H | (preds & g & Hp & Hg & H)].
    + now apply bind_Raise.
    + rewrite Hp, Hg. simpl. rewrite H. reflexivity.
Qed.

End Endpoint_facts.

(** The four failure codes on the scorer of the repository: no registry,
    an unknown model name, a field that is text, and a batch sent to a
    model that has neither [predict_batch] nor [predict]. *)
Lemma dispatch_failures :
  fst (Api.predict_risk Examples.working_env Examples.frame_of_records None
         Examples.text_age_request) = Api.HTTPException 503 "Model manager not available" /\
  fst (Api.predict_no_show Examples.working_env Examples.frame_of_records
         (Some Examples.scorer_manager) Examples.sample_request) =
    Api.HTTPException 404 "Model not found" /\
  fst (Api.predict_risk Examples.working_env Examples.frame_of_records
         (Some Examples.scorer_manager) Examples.text_age_request) =
    Api.HTTPException 400 "Invalid input" /\
  fst (Api.predict_batch Examples.working_env Examples.frame_of_records
         (Some Examples.scorer_manager) Examples.scorer_batch_request) =
    Api.HTTPException 500 "Prediction failed".
Proof.
  split; [reflexivity |].
  split; [reflexivity |].
  split.
  - unfold Api.predict_risk, ModelManager.get_model. simpl.
    rewrite lookup_singleton_eq.
    unfold Api.risk_try, PatientRiskScorer_obj, call_method. simpl.
    unfold PatientRiskScorer.calculate_composite_risk,
      PatientRiskScorer.calculate_cardiovascular_risk, PatientRiskScorer.cardiovascular_row,
      dict_get. simpl.
    rewrite lookup_singleton_eq. reflexivity.
  - unfold Api.predict_batch, ModelManager.get_model. simpl.
    rewrite lookup_singleton_eq. reflexivity.
Qed.

(** C2.  In each of the three prediction endpoints, when the prediction
    computation of the resolved model raises, the endpoint answers 400 with
    the message "Invalid input" for a [ValueError] or [TypeError] and 500
    with the message "Prediction failed" for any other exception.  The
    answer is fixed by the class of the exception alone: its text never
    enters the message the client sees. *)
Theorem prediction_errors_sanitized :
  (forall e pd mgr payload model exc,
     ModelManager.models mgr !! "no_show_predictor" = Some model ->
     Api.no_show_prob pd model (Api.no_show_data payload) = Raise exc \/
     Api.no_show_try pd model (Api.no_show_data payload) = Raise exc ->
     fst (Api.predict_no_show e pd (Some mgr) payload) = Spec.prediction_error exc) /\
  (forall e pd mgr payload model exc,
     ModelManager.models mgr !! "risk_scorer" = Some model ->
     call_method "calculate_composite_risk" (attr_calculate_composite_risk model)
       (pd [Api.patient_data payload]) = Raise exc \/
     Api.risk_try pd model (Api.patient_data payload) = Raise exc ->
     fst (Api.predict_risk e pd (Some mgr) payload) = Spec.prediction_error exc) /\
  (forall e pd mgr payload model exc,
     ModelManager.models mgr !! Api.model_name payload = Some model ->
     match attr_predict_batch model with
     | Some f => f (pd (Api.data payload)) = Raise exc
     | None =>
         call_method "predict" (attr_predict model) (pd (Api.data payload)) = Raise exc \/
         exists preds g,
           call_method "predict" (attr_predict model) (pd (Api.data payload)) = Ok preds /\
           attr_predict_proba model = Some g /\ g (pd (Api.data payload)) = Raise exc
     end \/
     Api.batch_try pd model (Api.data payload) = Raise exc ->
     fst (Api.predict_batch e pd (Some mgr) payload) = Spec.prediction_error exc) /\
  (forall (path : string) (exc : exn),
     Api.client_error path (Spec.prediction_error (A := unit) exc) =
       Some (if match exn_class exc with ValueError | TypeError => true | _ => false end
             then Api.mk_error 400 "Invalid input" path
             else Api.mk_error 500 "Prediction failed" path)) /\
  (forall (c : exc_class) (text1 text2 : string),
     Spec.prediction_error (A := unit) (mk_exn c text1) =
     Spec.prediction_error (mk_exn c text2)).
Proof.
  repeat split.
  - intros e pd mgr payload model exc Hm [H | H].
    + eapply predict_no_show_raised; [exact Hm | now apply no_show_try_propagates].
    + eapply predict_no_show_raised; eassumption.
  - intros e pd mgr payload model exc Hm [H | H].
    + eapply predict_risk_raised; [exact Hm | now apply risk_try_propagates].
    + eapply predict_risk_raised; eassumption.
  - intros e pd mgr payload model exc Hm [H | H].
    + eapply predict_batch_raised; [exact Hm | now apply batch_try_propagates].
    + eapply predict_batch_raised; eassumption.
  - intros path exc. unfold Spec.prediction_error. now destruct (exn_class exc).
Qed.

Lemma prediction_errors_sanitized_witness :
  fst (Api.predict_no_show Examples.working_env Examples.frame_of_records
         (Some (Examples.manager_with "no_show_predictor"
                  (Examples.raising_model Examples.secret_error)))
         Examples.sample_request) = Api.HTTPException 500 "Prediction failed" /\
  fst (Api.predict_no_show Examples.working_env Examples.frame_of_records
         (Some (Examples.manager_with "no_show_predictor"
                  (Examples.raising_model Examples.leak_error)))
         Examples.sample_request) = Api.HTTPException 400 "Invalid input".
Proof.
  split.
  - exact (proj1 prediction_errors_sanitized Examples.working_env Examples.frame_of_records
             (Examples.manager_with "no_show_predictor"
                (Examples.raising_model Examples.secret_error))
             Examples.sample_request (Examples.raising_model Examples.secret_error)
             Examples.secret_error (lookup_singleton_eq _ _) (or_introl eq_refl)).
  - exact (proj1 prediction_errors_sanitized Examples.working_env Examples.frame_of_records
             (Examples.manager_with "no_show_predictor"
                (Examples.raising_model Examples.leak_error))
             Examples.sample_request (Examples.raising_model Examples.leak_error)
             Examples.leak_error (lookup_singleton_eq _ _) (or_introl eq_refl)).
Defined.

(** * Further properties *)

(** ** The models *)

Section Model_properties.

Import NoShowPredictor.

Lemma logistic_strict (m1 m2 : R) : m1 < m2 -> logistic m1 < logistic m2.
Proof.
  intros Hlt. unfold logistic.
  pose proof (exp_pos (- (m1 - 0.5))) as H1.
  pose proof (exp_pos (- (m2 - 0.5))) as H2.
  assert (He : exp (- (m2 - 0.5)) < exp (- (m1 - 0.5))) by (apply exp_increasing; lra).
  unfold Rdiv. rewrite !Rmult_1_l.
  apply Rinv_lt_contravar; [apply Rmult_lt_0_compat; lra | lra].
Qed.







End Model_properties.



(** [predict_batch] returns four lists of one length, the number of
    probabilities: its predictions are those of [predict], every risk level
    is HIGH, MEDIUM or LOW and every explanation is [None]. *)
Lemma predict_batch_shape (sk : bool) (self : NoShowPredictor.t) (X : table) :
  exists risks expl,
    NoShowPredictor.raw_predictions (NoShowPredictor.predict_batch sk self X) =
      Some (NoShowPredictor.predict sk self X) /\
    NoShowPredictor.raw_risk_levels (NoShowPredictor.predict_batch sk self X) = Some risks /\
    NoShowPredictor.raw_explanations (NoShowPredictor.predict_batch sk self X) = Some expl /\
    length (NoShowPredictor.predict sk self X) =
      length (NoShowPredictor.predict_proba sk self X) /\
    length risks = length (NoShowPredictor.predict_proba sk self X) /\
    length expl = length (NoShowPredictor.predict_proba sk self X) /\
    Forall (fun r => In r ["HIGH"; "MEDIUM"; "LOW"]) risks /\
    Forall (fun x => x = None) expl.
Proof.
  eexists _, _. unfold NoShowPredictor.predict_batch, NoShowPredictor.predict. simpl.
  repeat split; try reflexivity; try apply length_map.
  - apply Forall_map, Forall_forall. intros p _. unfold NoShowPredictor.risk_of.
    destruct (Rge_dec p 0.7); [simpl; auto |]. destruct (Rge_dec p 0.4); simpl; auto.
  - apply Forall_map, Forall_forall. intros p _. reflexivity.
Qed.

(** X2.  Label and bucket of the no-show endpoint agree: a HIGH risk always
    comes with prediction 1 and a LOW risk with prediction 0; MEDIUM comes
    with 0 below one half and with 1 from one half on. *)
Theorem label_follows_bucket (p : R) :
  (Api.no_show_risk p = "HIGH" -> Api.no_show_label p = 1%Z) /\
  (Api.no_show_risk p = "LOW" -> Api.no_show_label p = 0%Z) /\
  (0.4 <= p < 0.5 -> Api.no_show_risk p = "MEDIUM" /\ Api.no_show_label p = 0%Z) /\
  (0.5 <= p < 0.7 -> Api.no_show_risk p = "MEDIUM" /\ Api.no_show_label p = 1%Z).
Proof. unfold Api.no_show_risk, Api.no_show_label. thresholds. Qed.

(** X3.  On the heuristic path a table without a number column gives every row
    the probability 1 / (1 + e^0.5), hence prediction 0 and risk LOW. *)
Theorem no_number_column_constant (sk : bool) (self : NoShowPredictor.t) (df : DataFrame) :
  Spec.heuristic_path sk self ->
  select_dtypes_number df = [] ->
  let raw := NoShowPredictor.predict_batch sk self (Frame df) in
  let n := length (df_rows df) in
  NoShowPredictor.raw_probabilities raw = Some (repeat (1 / (1 + exp 0.5)) n) /\
  NoShowPredictor.raw_predictions raw = Some (repeat 0%Z n) /\
  NoShowPredictor.raw_risk_levels raw = Some (repeat "LOW" n).
Proof.
  intros Hpath Hcols raw n. unfold raw, NoShowPredictor.predict_batch.
  rewrite (predict_proba_heuristic sk self _ Hpath). simpl. rewrite Hcols. fold n.
  pose proof logistic_zero_bounds as [Hlo Hhi].
  assert (Hlabel : (if Rge_dec (NoShowPredictor.logistic 0) 0.5 then 1%Z else 0%Z) = 0%Z)
    by (destruct (Rge_dec (NoShowPredictor.logistic 0) 0.5); [lra | reflexivity]).
  assert (Hrisk : NoShowPredictor.risk_of (NoShowPredictor.logistic 0) = "LOW")
    by (unfold NoShowPredictor.risk_of; thresholds).
  rewrite <- logistic_zero.
  induction n as [| n IH]; simpl; [auto |].
  destruct IH as ([= ->] & [= ->] & [= ->]). rewrite Hlabel, Hrisk. auto.
Qed.

Lemma no_number_column_constant_witness :
  NoShowPredictor.raw_risk_levels
    (NoShowPredictor.predict_batch false NoShowPredictor.init
       (Frame (mk_df [("day_of_week", DObject)] [Examples.text_record; Examples.text_record])))
    = Some ["LOW"; "LOW"].
Proof.
  exact (proj2 (proj2 (no_number_column_constant false NoShowPredictor.init
           (mk_df [("day_of_week", DObject)] [Examples.text_record; Examples.text_record])
           (or_introl eq_refl) eq_refl))).
Defined.

(** [train] never fails and always marks the predictor trained.  When the
    backend is missing or the fit fails, the trained predictor answers with
    the heuristic; when the fit succeeds it answers with the classifier. *)
Lemma train_then_predict (sk : bool)
    (fit : DataFrame -> option (list Z) -> option NoShowPredictor.LogisticRegression)
    (self : NoShowPredictor.t) (X : DataFrame) (y : option (list Z)) (T : table) :
  let trained := NoShowPredictor.train sk fit self X y in
  NoShowPredictor.is_trained trained = true /\
  NoShowPredictor.feature_columns trained = map fst (df_dtypes X) /\
  (sk = false \/ fit X y = None ->
   NoShowPredictor.predict_proba sk trained T =
     map NoShowPredictor.logistic (NoShowPredictor.heuristic_vals T)) /\
  (forall clf, sk = true -> fit X y = Some clf ->
   NoShowPredictor.predict_proba sk trained T = NoShowPredictor.lr_predict_proba clf T).
Proof.
  intros trained. split; [reflexivity |]. split; [reflexivity |]. split.
  - intros Hback. apply predict_proba_heuristic. unfold Spec.heuristic_path, trained.
    destruct Hback as [-> | Hfit]; [now left |]. right. simpl. rewrite Hfit. now destruct sk.
  - intros clf -> Hfit. unfold trained, NoShowPredictor.predict_proba. simpl.
    rewrite Hfit. reflexivity.
Qed.

(** X4.  The categories are ordered like the scores: a higher score never gets
    a lower category, on the 4-level scale and on both 3-level scales; and
    the 4-level category of a score is never below its 3-level category. *)
Theorem categories_monotone (s1 s2 : R) :
  s1 <= s2 ->
  (Derived.severity (PatientRiskScorer.categorize s1) <=
   Derived.severity (PatientRiskScorer.categorize s2))%nat /\
  (Derived.severity (Api.no_show_risk s1) <= Derived.severity (Api.no_show_risk s2))%nat /\
  (Derived.severity (NoShowPredictor.risk_of s1) <=
   Derived.severity (NoShowPredictor.risk_of s2))%nat /\
  (Derived.severity (Api.no_show_risk s1) <=
   Derived.severity (PatientRiskScorer.categorize s1))%nat.
Proof.
  intros Hle.
  unfold PatientRiskScorer.categorize, Api.no_show_risk, NoShowPredictor.risk_of.
  repeat match goal with
         | |- context [Rge_dec ?a ?b] => destruct (Rge_dec a b)
         end;
  repeat split; first [ unfold Derived.severity; simpl; lia | exfalso; lra ].
Qed.

Lemma categories_monotone_witness :
  (Derived.severity (PatientRiskScorer.categorize 0.5) <=
   Derived.severity (PatientRiskScorer.categorize 0.9))%nat.
Proof.
  exact (proj1 (categories_monotone 0.5 0.9 ltac:(lra))).
Defined.



(** ** The composite scorer beyond its formula *)

Section Scorer_properties.

Import PatientRiskScorer.








Lemma Rmin_monotone (a b : R) : a <= b -> Rmin 1 a <= Rmin 1 b.
Proof. intros Hle. unfold Rmin. repeat destruct (Rle_dec _ _); lra. Qed.

End Scorer_properties.


(** X7.  The composite score never decreases when a scorer field grows: of two
    one-row tables whose rows hold numbers, the one with the larger age,
    cholesterol, glucose level and previous admissions scores at least as
    much. *)
Theorem composite_monotone (dt : list (string * dtype)) (r1 r2 : record) :
  Spec.numeric_row r1 -> Spec.numeric_row r2 ->
  Forall (fun k => Spec.field r1 k <= Spec.field r2 k) Spec.risk_fields ->
  exists s1 s2,
    PatientRiskScorer.calculate_composite_risk (mk_df dt [r1]) = Ok [s1] /\
    PatientRiskScorer.calculate_composite_risk (mk_df dt [r2]) = Ok [s2] /\
    s1 <= s2.
Proof.
  intros H1 H2 Hle. exists (Spec.composite r1), (Spec.composite r2).
  split; [apply (composite_risk_spec (mk_df dt [r1])); simpl; auto |].
  split; [apply (composite_risk_spec (mk_df dt [r2])); simpl; auto |].
  unfold Spec.risk_fields in Hle.
  repeat (apply Forall_cons_1 in Hle; destruct Hle as [? Hle]).
  unfold Spec.composite, Spec.cardiovascular, Spec.diabetes, Spec.readmission.
  assert (Rmin 1 (Spec.field r1 "age" / 100 + Spec.field r1 "cholesterol" / 500) <=
          Rmin 1 (Spec.field r2 "age" / 100 + Spec.field r2 "cholesterol" / 500))
    by (apply Rmin_monotone; lra).
  assert (Rmin 1 (Spec.field r1 "glucose_level" / 300) <=
          Rmin 1 (Spec.field r2 "glucose_level" / 300)) by (apply Rmin_monotone; lra).
  assert (Rmin 1 (Spec.field r1 "previous_admissions" / 8) <=
          Rmin 1 (Spec.field r2 "previous_admissions" / 8)) by (apply Rmin_monotone; lra).
  lra.
Qed.


Lemma composite_monotone_witness :
  exists s1 s2,
    PatientRiskScorer.calculate_composite_risk (mk_df [("age", DNumber)] [Cases.young_row])
      = Ok [s1] /\
    PatientRiskScorer.calculate_composite_risk (mk_df [("age", DNumber)] [Cases.old_row])
      = Ok [s2] /\
    s1 <= s2.
Proof.
  apply (composite_monotone [("age", DNumber)] Cases.young_row Cases.old_row).
  - unfold Spec.numeric_row, Spec.risk_fields.
    repeat apply Forall_cons_2; try apply Forall_nil_2; unfold dict_get; simpl; eauto.
  - unfold Spec.numeric_row, Spec.risk_fields.
    repeat apply Forall_cons_2; try apply Forall_nil_2; unfold dict_get; simpl; eauto.
  - unfold Spec.risk_fields.
    repeat apply Forall_cons_2; try apply Forall_nil_2;
      unfold Spec.field, dict_get, number_value, Cases.young_row, Cases.old_row;
      simplify_map_eq; simpl; lra.
Defined.


(** ** The registry, name by name *)

Section Registry_views.

Import ModelManager.

Lemma string_length_app (s t : string) :
  String.length (s ++ t) = (String.length s + String.length t)%nat.
Proof. induction s as [| a s IH]; simpl; [reflexivity | now rewrite IH]. Qed.

Lemma string_app_inv_tail (t s1 s2 : string) : s1 ++ t = s2 ++ t -> s1 = s2.
Proof.
  revert s2. induction s1 as [| a s1 IH]; intros [| b s2] H; simpl in H.
  - reflexivity.
  - apply (f_equal String.length) in H. simpl in H.
    rewrite !string_length_app in H. simpl in H. lia.
  - apply (f_equal String.length) in H. simpl in H.
    rewrite !string_length_app in H. simpl in H. lia.
  - injection H as -> H. f_equal. now apply IH.
Qed.

Lemma model_file_inj (a b : string) : model_file a = model_file b -> a = b.
Proof. apply string_app_inv_tail. Qed.

Lemma model_file_ne (a b : string) : a <> b -> model_file a <> model_file b.
Proof. intros Hne Heq. now apply Hne, model_file_inj. Qed.

Lemma view_save_model (e : env) (self : t) (name : string) (model : model_obj) :
  Derived.view name (save_model e self name model) =
    if dump_ok e name then
      (models self !! name,
       Some (<["saved_at" := utcnow e]> (default ∅ (model_metadata self !! name))),
       Some (Some model))
    else Derived.view name self.
Proof.
  unfold Derived.view, save_model, stamp. destruct (dump_ok e name); [| reflexivity].
  simpl. now rewrite !lookup_insert_eq.
Qed.

Lemma view_save_model_ne (e : env) (self : t) (name n : string) (model : model_obj) :
  n <> name -> Derived.view n (save_model e self name model) = Derived.view n self.
Proof.
  intros Hne. unfold Derived.view, save_model, stamp.
  destruct (dump_ok e name); [| reflexivity]. simpl.
  rewrite !lookup_insert_ne; [reflexivity | | congruence].
  apply model_file_ne. congruence.
Qed.

Lemma initialize_one_view_untrained (e : env) (self : t) (name : string) :
  load_model_from_disk self name = None ->
  Derived.view name
    (match train_baseline_model e self name with
     | Ok self' =>
         set_metadata self' name {[ "loaded_from" := "baseline"; "load_time" := utcnow e ]}
     | Raise _ => warn_failed_baseline self name
     end) =
  match baseline_error e name with
  | Some _ => Derived.view name self
  | None =>
      if decide (name = "no_show_predictor" \/ name = "risk_scorer") then
        (Some (Derived.baseline_object e name),
         Some (Derived.load_entry "baseline" (utcnow e)),
         if dump_ok e name then Some (Some (Derived.baseline_object e name))
         else files self !! model_file name)
      else (models self !! name, Some (Derived.load_entry "baseline" (utcnow e)),
            files self !! model_file name)
  end.
Proof.
  intros _. unfold train_baseline_model.
  destruct (baseline_error e name); [reflexivity |].
  unfold Derived.baseline_object, Derived.load_entry.
  destruct (decide (name = "no_show_predictor")) as [-> | Hn].
  - rewrite decide_True by now left.
    unfold Derived.view, save_model, stamp. destruct (dump_ok e _); simpl;
      now rewrite !lookup_insert_eq.
  - destruct (decide (name = "risk_scorer")) as [-> | Hr].
    + rewrite decide_True by now right.
      unfold Derived.view, save_model, stamp. destruct (dump_ok e _); simpl;
        now rewrite !lookup_insert_eq.
    + rewrite decide_False by tauto.
      unfold Derived.view. simpl. now rewrite lookup_insert_eq.
Qed.

Lemma initialize_one_view (e : env) (self : t) (name : string) :
  Derived.view name (initialize_one e self name) =
    Derived.initialize_view e name (Derived.view name self).
Proof.
  unfold initialize_one.
  destruct (load_model_from_disk self name) as [loaded |] eqn:Hload.
  - unfold load_model_from_disk in Hload. unfold Derived.initialize_view, Derived.view.
    destruct (files self !! model_file name) as [[obj |] |] eqn:Hfile; try discriminate.
    injection Hload as ->. simpl. now rewrite !lookup_insert_eq, Hfile.
  - rewrite (initialize_one_view_untrained e self name Hload).
    unfold load_model_from_disk in Hload. unfold Derived.initialize_view, Derived.view.
    destruct (files self !! model_file name) as [[obj |] |] eqn:Hfile; try discriminate;
      reflexivity.
Qed.

Lemma initialize_one_view_ne (e : env) (self : t) (name n : string) :
  n <> name -> Derived.view n (initialize_one e self name) = Derived.view n self.
Proof.
  intros Hne. unfold initialize_one.
  destruct (load_model_from_disk self name) as [loaded |].
  - unfold Derived.view. simpl. rewrite !lookup_insert_ne by congruence. reflexivity.
  - unfold train_baseline_model. destruct (baseline_error e name); [reflexivity |].
    repeat case_decide.
    + unfold Derived.view at 1. simpl. rewrite lookup_insert_ne by congruence.
      match goal with
      | |- context [save_model e ?st name ?obj] =>
          pose proof (view_save_model_ne e st name n obj Hne) as Hv
      end.
      unfold Derived.view in Hv at 1. injection Hv as -> -> ->.
      unfold Derived.view. simpl. rewrite lookup_insert_ne by congruence. reflexivity.
    + unfold Derived.view at 1. simpl. rewrite lookup_insert_ne by congruence.
      match goal with
      | |- context [save_model e ?st name ?obj] =>
          pose proof (view_save_model_ne e st name n obj Hne) as Hv
      end.
      unfold Derived.view in Hv at 1. injection Hv as -> -> ->.
      unfold Derived.view. simpl. rewrite lookup_insert_ne by congruence. reflexivity.
    + unfold Derived.view. simpl. rewrite lookup_insert_ne by congruence. reflexivity.
Qed.

Lemma initialize_loop_view_ne (e : env) (names : list string) (self : t) (n : string) :
  ~ In n names -> Derived.view n (foldl (initialize_one e) self names) = Derived.view n self.
Proof.
  revert self. induction names as [| name names IH]; intros self Hnot; [reflexivity |].
  cbn [foldl fold_left]. rewrite IH by (intros Hin; apply Hnot; now right).
  apply initialize_one_view_ne. intros ->. apply Hnot. now left.
Qed.

Lemma initialize_loop_view (e : env) (names : list string) (self : t) (n : string) :
  NoDup names -> In n names ->
  Derived.view n (foldl (initialize_one e) self names) =
    Derived.initialize_view e n (Derived.view n self).
Proof.
  intros Hnodup. revert self.
  induction Hnodup as [| name names Hfresh _ IH]; intros self Hin; [destruct Hin |].
  cbn [foldl fold_left]. destruct (decide (n = name)) as [-> | Hne].
  - rewrite initialize_loop_view_ne; [apply initialize_one_view |].
    intros Hin'. apply Hfresh. now apply list_elem_of_In.
  - destruct Hin as [-> | Hin]; [contradiction |].
    rewrite (IH _ Hin). now rewrite initialize_one_view_ne.
Qed.

(** The state [initialize] starts its loop from. *)
Lemma initialize_view (e : env) (self : t) (n : string) :
  Derived.required n ->
  Derived.view n (initialize e self) =
    Derived.initialize_view e n
      (Some (Derived.default_object e n), model_metadata self !! n,
       files self !! model_file n).
Proof.
  intros Hreq. unfold initialize.
  rewrite initialize_loop_view.
  - f_equal. unfold Derived.view, Derived.default_object. simpl.
    destruct Hreq as [-> | ->].
    + rewrite lookup_insert_ne by discriminate. rewrite lookup_insert_eq.
      case_decide; [reflexivity | contradiction].
    + rewrite lookup_insert_eq. case_decide; [discriminate | reflexivity].
  - unfold dict_keys. apply NoDup_fst_map_to_list.
  - apply list_elem_of_In. unfold dict_keys. apply list_elem_of_fmap.
    destruct Hreq as [-> | ->].
    + eexists ("no_show_predictor", _). split; [reflexivity |].
      apply elem_of_map_to_list. simpl.
      rewrite lookup_insert_ne by discriminate. apply lookup_insert_eq.
    + eexists ("risk_scorer", _). split; [reflexivity |].
      apply elem_of_map_to_list. simpl. apply lookup_insert_eq.
Qed.

End Registry_views.

Section Registry_loops.

Import ModelManager.

Lemma view_inv (n : string) (self : t) (m : option model_obj)
    (md : option (gmap string string)) (f : option (option model_obj)) :
  Derived.view n self = (m, md, f) ->
  models self !! n = m /\ model_metadata self !! n = md /\ files self !! model_file n = f.
Proof. unfold Derived.view. intros [= -> -> ->]. auto. Qed.

Lemma cleanup_loop_view_ne (e : env) (items : list (string * model_obj)) (self : t)
    (n : string) :
  ~ In n items.*1 ->
  Derived.view n (foldl (fun st item => save_model e st (fst item) (snd item)) self items) =
    Derived.view n self.
Proof.
  revert self. induction items as [| [name m] items IH]; intros self Hnot; [reflexivity |].
  cbn [foldl fold_left fst snd]. rewrite IH by (intros Hin; apply Hnot; now right).
  apply view_save_model_ne. intros ->. apply Hnot. now left.
Qed.

Lemma cleanup_loop_view (e : env) (items : list (string * model_obj)) (self : t)
    (n : string) (m : model_obj) :
  NoDup items.*1 -> In (n, m) items ->
  Derived.view n (foldl (fun st item => save_model e st (fst item) (snd item)) self items) =
    Derived.view n (save_model e self n m).
Proof.
  revert self. induction items as [| [name m'] items IH]; intros self Hnodup Hin;
    [destruct Hin |].
  cbn [foldl fold_left fst snd]. apply NoDup_cons in Hnodup as [Hfresh Hnodup].
  destruct Hin as [[= -> ->] | Hin].
  - apply cleanup_loop_view_ne. intros Hin. apply Hfresh. now apply list_elem_of_In.
  - assert (Hne : n <> name).
    { intros ->. apply Hfresh. apply list_elem_of_fmap. exists (name, m).
      split; [reflexivity | now apply list_elem_of_In]. }
    rewrite (IH _ Hnodup Hin).
    rewrite !view_save_model. destruct (dump_ok e n).
    + pose proof (view_save_model_ne e self name n m' Hne) as Hv.
      unfold Derived.view in Hv. injection Hv as -> -> _. reflexivity.
    + now apply view_save_model_ne.
Qed.

Lemma cleanup_view (e : env) (self : t) (n : string) (m : model_obj) :
  models self !! n = Some m ->
  Derived.view n (cleanup e self) = Derived.view n (save_model e self n m).
Proof.
  intros Hm. unfold cleanup. apply cleanup_loop_view.
  - apply NoDup_fst_map_to_list.
  - apply list_elem_of_In. now apply elem_of_map_to_list.
Qed.

Lemma load_from_empty (n : string) : load_model_from_disk (init ∅) n = None.
Proof. unfold load_model_from_disk. simpl. now rewrite lookup_empty. Qed.

End Registry_loops.

(** X9.  After [initialize], whatever was on disk and whatever failed, both
    required names are registered: retrieval of "no_show_predictor" and of
    "risk_scorer" cannot raise [KeyError], and both are listed as loaded. *)
Theorem initialize_registers_required (e : ModelManager.env) (self : ModelManager.t)
    (n : string) :
  Derived.required n ->
  (exists m, fst (ModelManager.get_model e (ModelManager.initialize e self) n) = Ok m) /\
  In n (ModelManager.get_loaded_models (ModelManager.initialize e self)).
Proof.
  intros Hreq. pose proof (initialize_view e self n Hreq) as Hv.
  assert (Hsome : is_Some (ModelManager.models (ModelManager.initialize e self) !! n)).
  { unfold Derived.initialize_view in Hv.
    destruct (ModelManager.files self !! ModelManager.model_file n) as [[obj |] |];
      destruct (ModelManager.baseline_error e n);
      rewrite ?decide_True in Hv by exact Hreq;
      apply view_inv in Hv as (-> & _ & _); eauto. }
  destruct Hsome as [m Hm]. split.
  - exists m. unfold ModelManager.get_model. now rewrite Hm.
  - apply list_elem_of_In. unfold ModelManager.get_loaded_models, dict_keys.
    apply list_elem_of_fmap. exists (n, m). split; [reflexivity |].
    now apply elem_of_map_to_list.
Qed.

Lemma initialize_registers_required_witness :
  In "risk_scorer"
    (ModelManager.get_loaded_models
       (ModelManager.initialize Examples.failing_env (ModelManager.init ∅))).
Proof.
  exact (proj2 (initialize_registers_required Examples.failing_env (ModelManager.init ∅)
                  "risk_scorer" (or_intror eq_refl))).
Defined.

(** X10.  [initialize] installs what it can load: when the file of a required
    name holds a readable model, that model replaces the default instance,
    the metadata entry becomes exactly loaded_from = disk with the load
    time (older stamps are dropped), and the file is left as it is. *)
Theorem initialize_loads_saved_model (e : ModelManager.env) (self : ModelManager.t)
    (n : string) (obj : model_obj) :
  Derived.required n ->
  ModelManager.files self !! ModelManager.model_file n = Some (Some obj) ->
  ModelManager.models (ModelManager.initialize e self) !! n = Some obj /\
  ModelManager.model_metadata (ModelManager.initialize e self) !! n =
    Some {[ "loaded_from" := "disk"; "load_time" := ModelManager.utcnow e ]} /\
  ModelManager.files (ModelManager.initialize e self) !! ModelManager.model_file n =
    Some (Some obj).
Proof.
  intros Hreq Hfile. pose proof (initialize_view e self n Hreq) as Hv.
  rewrite Hfile in Hv. unfold Derived.initialize_view in Hv.
  apply view_inv in Hv as (-> & -> & ->). auto.
Qed.

Lemma initialize_loads_saved_model_witness :
  ModelManager.models
    (ModelManager.initialize Examples.failing_env (ModelManager.init Cases.scorer_disk))
    !! "risk_scorer" = Some PatientRiskScorer_obj.
Proof.
  exact (proj1 (initialize_loads_saved_model Examples.failing_env
                  (ModelManager.init Cases.scorer_disk) "risk_scorer" PatientRiskScorer_obj
                  (or_intror eq_refl) (lookup_singleton_eq _ _))).
Defined.

(** X11.  When nothing can be loaded for a required name and its baseline
    training does not raise, [initialize] registers the freshly trained
    model, which is marked trained, writes exactly loaded_from = baseline
    with the load time as metadata (the saved_at stamp of the save is
    dropped), and the model can be loaded back when the dump succeeded. *)
Theorem initialize_trains_baseline (e : ModelManager.env) (self : ModelManager.t)
    (n : string) :
  Derived.required n ->
  ModelManager.load_model_from_disk self n = None ->
  ModelManager.baseline_error e n = None ->
  ModelManager.models (ModelManager.initialize e self) !! n =
    Some (Derived.baseline_object e n) /\
  attr_is_trained (Derived.baseline_object e n) = Some true /\
  ModelManager.model_metadata (ModelManager.initialize e self) !! n =
    Some {[ "loaded_from" := "baseline"; "load_time" := ModelManager.utcnow e ]} /\
  ModelManager.load_model_from_disk (ModelManager.initialize e self) n =
    if ModelManager.dump_ok e n then Some (Derived.baseline_object e n) else None.
Proof.
  intros Hreq Hload Herr. pose proof (initialize_view e self n Hreq) as Hv.
  unfold ModelManager.load_model_from_disk in *.
  unfold Derived.initialize_view in Hv. rewrite Herr in Hv.
  rewrite decide_True in Hv by exact Hreq.
  assert (Htrained : attr_is_trained (Derived.baseline_object e n) = Some true).
  { unfold Derived.baseline_object. case_decide; reflexivity. }
  destruct (ModelManager.files self !! ModelManager.model_file n) as [[obj |] |];
    try discriminate; apply view_inv in Hv as (-> & -> & ->);
    destruct (ModelManager.dump_ok e n); auto.
Qed.

Lemma initialize_trains_baseline_witness :
  ModelManager.models (ModelManager.initialize Examples.working_env (ModelManager.init ∅))
    !! "no_show_predictor" = Some (Derived.baseline_object Examples.working_env
                                     "no_show_predictor") /\
  ModelManager.load_model_from_disk
    (ModelManager.initialize Examples.working_env (ModelManager.init ∅)) "no_show_predictor"
    = Some (Derived.baseline_object Examples.working_env "no_show_predictor").
Proof.
  destruct (initialize_trains_baseline Examples.working_env (ModelManager.init ∅)
              "no_show_predictor" (or_introl eq_refl) (load_from_empty _) eq_refl)
    as (Hm & _ & _ & Hl).
  split; [exact Hm | exact Hl].
Defined.

(** X12.  When nothing can be loaded for a required name and its baseline
    training raises, [initialize] leaves the default instance registered
    and touches neither the metadata entry nor the file of that name. *)
Theorem initialize_keeps_default_on_failure (e : ModelManager.env) (self : ModelManager.t)
    (n : string) (exc : exn) :
  Derived.required n ->
  ModelManager.load_model_from_disk self n = None ->
  ModelManager.baseline_error e n = Some exc ->
  ModelManager.models (ModelManager.initialize e self) !! n =
    Some (Derived.default_object e n) /\
  ModelManager.model_metadata (ModelManager.initialize e self) !! n =
    ModelManager.model_metadata self !! n /\
  ModelManager.files (ModelManager.initialize e self) !! ModelManager.model_file n =
    ModelManager.files self !! ModelManager.model_file n.
Proof.
  intros Hreq Hload Herr. pose proof (initialize_view e self n Hreq) as Hv.
  unfold ModelManager.load_model_from_disk in *.
  unfold Derived.initialize_view in Hv. rewrite Herr in Hv.
  destruct (ModelManager.files self !! ModelManager.model_file n) as [[obj |] |];
    try discriminate; apply view_inv in Hv as (-> & -> & ->); auto.
Qed.

Lemma initialize_keeps_default_on_failure_witness :
  ModelManager.models (ModelManager.initialize Examples.failing_env (ModelManager.init ∅))
    !! "no_show_predictor" = Some (NoShowPredictor_obj false NoShowPredictor.init).
Proof.
  exact (proj1 (initialize_keeps_default_on_failure Examples.failing_env
                  (ModelManager.init ∅) "no_show_predictor"
                  (mk_exn OtherException "training failed")
                  (or_introl eq_refl) (load_from_empty _) eq_refl)).
Defined.

(** X13.  Health right after [initialize]: the registry is healthy exactly when
    each required name either loaded a model whose trained flag is true or,
    with nothing loaded, is the scorer (trained by construction, even when
    its baseline training raised) or the predictor whose baseline training
    did not raise. *)
Theorem health_after_initialize (e : ModelManager.env) (self : ModelManager.t) :
  ModelManager.health_check (ModelManager.initialize e self) = true <->
  match ModelManager.load_model_from_disk self "no_show_predictor" with
  | Some obj => attr_is_trained obj = Some true
  | None => ModelManager.baseline_error e "no_show_predictor" = None
  end /\
  match ModelManager.load_model_from_disk self "risk_scorer" with
  | Some obj => attr_is_trained obj = Some true
  | None => True
  end.
Proof.
  unfold ModelManager.health_check. rewrite health_loop_spec.
  pose proof (initialize_view e self "no_show_predictor" (or_introl eq_refl)) as Hp.
  pose proof (initialize_view e self "risk_scorer" (or_intror eq_refl)) as Hs.
  unfold ModelManager.load_model_from_disk, Derived.initialize_view in *.
  destruct (ModelManager.files self !! ModelManager.model_file "no_show_predictor")
    as [[objp |] |];
  destruct (ModelManager.files self !! ModelManager.model_file "risk_scorer")
    as [[objs |] |];
  destruct (ModelManager.baseline_error e "no_show_predictor");
  destruct (ModelManager.baseline_error e "risk_scorer");
  rewrite ?decide_True in Hp by (now left);
  rewrite ?decide_True in Hs by (now right);
  apply view_inv in Hp as (Hp & _ & _); apply view_inv in Hs as (Hs & _ & _);
  (split;
   [ intros [(m1 & Hm1 & Ht1) [(m2 & Hm2 & Ht2) _]%Forall_cons_1]%Forall_cons_1;
     rewrite Hp in Hm1; rewrite Hs in Hm2;
     injection Hm1 as <-; injection Hm2 as <-;
     split; auto; try discriminate Ht1
   | intros [H1 H2]; repeat apply Forall_cons_2; try apply Forall_nil_2;
     eexists; (split; [eassumption |]); auto; try discriminate H1 ]).
Qed.

Lemma health_after_initialize_witness :
  ModelManager.health_check
    (ModelManager.initialize Examples.working_env (ModelManager.init ∅)) = true /\
  ModelManager.health_check
    (ModelManager.initialize Examples.failing_env (ModelManager.init ∅)) = false.
Proof.
  split.
  - apply (proj2 (health_after_initialize Examples.working_env (ModelManager.init ∅))).
    rewrite !load_from_empty. split; [reflexivity | exact I].
  - apply not_true_is_false. intros Hh.
    apply (proj1 (health_after_initialize Examples.failing_env (ModelManager.init ∅))) in Hh.
    rewrite !load_from_empty in Hh. destruct Hh as [Hh _]. discriminate Hh.
Defined.

(** X14.  [get_model] on a registered name returns the model and only stamps
    last_used in that name's metadata entry: models, files, the other
    entries and the other keys of the entry stay as they were.  On a name
    that is not registered it raises [KeyError] carrying the name and
    changes nothing. *)
Theorem get_model_effect (e : ModelManager.env) (self : ModelManager.t) (n : string) :
  (forall m,
     ModelManager.models self !! n = Some m ->
     let after := snd (ModelManager.get_model e self n) in
     fst (ModelManager.get_model e self n) = Ok m /\
     ModelManager.models after = ModelManager.models self /\
     ModelManager.files after = ModelManager.files self /\
     (forall n', n' <> n ->
        ModelManager.model_metadata after !! n' = ModelManager.model_metadata self !! n') /\
     exists entry,
       ModelManager.model_metadata after !! n = Some entry /\
       entry !! "last_used" = Some (ModelManager.utcnow e) /\
       forall k, k <> "last_used" ->
         entry !! k = default ∅ (ModelManager.model_metadata self !! n) !! k) /\
  (ModelManager.models self !! n = None ->
   ModelManager.get_model e self n = (Raise (mk_exn KeyError n), self)).
Proof.
  split.
  - intros m Hm after. unfold after, ModelManager.get_model. rewrite Hm. simpl.
    unfold ModelManager.stamp. repeat split.
    + intros n' Hne. now rewrite lookup_insert_ne by congruence.
    + eexists. split; [apply lookup_insert_eq |]. split; [apply lookup_insert_eq |].
      intros k Hk. now rewrite lookup_insert_ne by congruence.
  - intros Hm. unfold ModelManager.get_model. now rewrite Hm.
Qed.




(** X17.  A restart keeps the models: after a [cleanup] in which the dump of a
    required name succeeded, a registry created over the same storage
    directory and initialized holds the very model that was registered
    before, tagged as loaded from disk. *)
Theorem restart_restores_model (e1 e2 : ModelManager.env) (self : ModelManager.t)
    (n : string) (m : model_obj) :
  Derived.required n ->
  ModelManager.models self !! n = Some m ->
  ModelManager.dump_ok e1 n = true ->
  let restarted :=
    ModelManager.initialize e2
      (ModelManager.init (ModelManager.files (ModelManager.cleanup e1 self))) in
  ModelManager.models restarted !! n = Some m /\
  ModelManager.model_metadata restarted !! n =
    Some {[ "loaded_from" := "disk"; "load_time" := ModelManager.utcnow e2 ]}.
Proof.
  intros Hreq Hm Hdump restarted.
  pose proof (cleanup_view e1 self n m Hm) as Hv. rewrite view_save_model, Hdump in Hv.
  apply view_inv in Hv as (_ & _ & Hf).
  pose proof (initialize_view e2
                (ModelManager.init (ModelManager.files (ModelManager.cleanup e1 self)))
                n Hreq) as Hi.
  simpl in Hi. rewrite Hf in Hi. unfold Derived.initialize_view in Hi.
  apply view_inv in Hi as (Hi1 & Hi2 & _). auto.
Qed.

Lemma restart_restores_model_witness :
  ModelManager.models
    (ModelManager.initialize Examples.failing_env
       (ModelManager.init
          (ModelManager.files
             (ModelManager.cleanup Examples.working_env Examples.scorer_manager))))
    !! "risk_scorer" = Some PatientRiskScorer_obj.
Proof.
  exact (proj1 (restart_restores_model Examples.working_env Examples.failing_env
                  Examples.scorer_manager "risk_scorer" PatientRiskScorer_obj
                  (or_intror eq_refl) (lookup_singleton_eq _ _) eq_refl)).
Defined.

(** ** The endpoints on the models of the repository *)

Section Endpoint_properties.




End Endpoint_properties.





(** X20.  The response model guards the probability: when a registered model
    without an explanation hook answers a record with a number outside
    [0, 1], the no-show endpoint answers 400 "Invalid input" (the
    validation error is a [ValueError]); inside [0, 1] it answers 200. *)
Theorem probability_out_of_range_rejected (e : ModelManager.env)
    (pd : list record -> DataFrame) (mgr : ModelManager.t) (model : model_obj)
    (f : record -> result R) (payload : Api.NoShowPredictionRequest) (prob : R) :
  ModelManager.models mgr !! "no_show_predictor" = Some model ->
  attr_predict_proba_single model = Some f ->
  attr_explain_factors model = None ->
  f (Api.no_show_data payload) = Ok prob ->
  (prob < 0 \/ 1 < prob ->
   fst (Api.predict_no_show e pd (Some mgr) payload) = Api.HTTPException 400 "Invalid input") /\
  (0 <= prob <= 1 ->
   fst (Api.predict_no_show e pd (Some mgr) payload) =
     Api.Success (Api.mk_no_show_response (Api.no_show_label prob) prob
                    (Api.no_show_risk prob) (attr_last_confidence model) None)).
Proof.
  intros Hm Hf Hx Hp.
  assert (Htry : Api.no_show_try pd model (Api.no_show_data payload) =
                 Api.new_no_show_response (Api.no_show_label prob) prob
                   (Api.no_show_risk prob) (attr_last_confidence model) None).
  { unfold Api.no_show_try, Api.no_show_prob, Api.explain. rewrite Hf, Hp, Hx. reflexivity. }
  unfold Api.predict_no_show, ModelManager.get_model. rewrite Hm, Htry. simpl.
  split.
  - intros Hout. unfold Api.new_no_show_response.
    destruct (decide _); [| reflexivity].
    destruct (Rle_dec 0 prob); [| reflexivity].
    destruct (Rle_dec prob 1); [lra | reflexivity].
  - intros Hin. now rewrite new_no_show_response_ok.
Qed.

Lemma probability_out_of_range_rejected_witness :
  fst (Api.predict_no_show Examples.working_env Examples.frame_of_records
         (Some (Examples.manager_with "no_show_predictor" Cases.overconfident_model))
         Examples.sample_request) = Api.HTTPException 400 "Invalid input".
Proof.
  apply (proj1 (probability_out_of_range_rejected Examples.working_env
                  Examples.frame_of_records
                  (Examples.manager_with "no_show_predictor" Cases.overconfident_model)
                  Cases.overconfident_model (fun _ => Ok 1.5) Examples.sample_request 1.5
                  (lookup_singleton_eq _ _) eq_refl eq_refl eq_refl)).
  right. lra.
Defined.



(** X22.  The batch endpoint cannot serve the scorer: [PatientRiskScorer] has
    neither [predict_batch] nor [predict], so every batch request that
    names a registered scorer is answered 500 "Prediction failed",
    whatever the data. *)
Theorem batch_rejects_scorer (e : ModelManager.env) (pd : list record -> DataFrame)
    (mgr : ModelManager.t) (payload : Api.BatchPredictRequest) :
  ModelManager.models mgr !! Api.model_name payload = Some PatientRiskScorer_obj ->
  fst (Api.predict_batch e pd (Some mgr) payload) =
    Api.HTTPException 500 "Prediction failed".
Proof.
  intros Hm. unfold Api.predict_batch, ModelManager.get_model. rewrite Hm. reflexivity.
Qed.

Lemma batch_rejects_scorer_witness :
  fst (Api.predict_batch Examples.working_env Examples.frame_of_records
         (Some Examples.scorer_manager) Examples.scorer_batch_request) =
    Api.HTTPException 500 "Prediction failed".
Proof.
  exact (batch_rejects_scorer Examples.working_env Examples.frame_of_records
           Examples.scorer_manager Examples.scorer_batch_request (lookup_singleton_eq _ _)).
Defined.



(** X24.  Without a registry every prediction endpoint answers 503, and for a
    name that is not registered it answers 404 "Model not found" and
    leaves the registry exactly as it was: no metadata is stamped. *)
Theorem missing_model_or_manager (e : ModelManager.env) (pd : list record -> DataFrame) :
  (forall p1 p2 p3,
     Api.predict_no_show e pd None p1 =
       (Api.HTTPException 503 "Model manager not available", None) /\
     Api.predict_risk e pd None p2 =
       (Api.HTTPException 503 "Model manager not available", None) /\
     Api.predict_batch e pd None p3 =
       (Api.HTTPException 503 "Model manager not available", None)) /\
  (forall mgr p1,
     ModelManager.models mgr !! "no_show_predictor" = None ->
     Api.predict_no_show e pd (Some mgr) p1 =
       (Api.HTTPException 404 "Model not found", Some mgr)) /\
  (forall mgr p2,
     ModelManager.models mgr !! "risk_scorer" = None ->
     Api.predict_risk e pd (Some mgr) p2 =
       (Api.HTTPException 404 "Model not found", Some mgr)) /\
  (forall mgr p3,
     ModelManager.models mgr !! Api.model_name p3 = None ->
     Api.predict_batch e pd (Some mgr) p3 =
       (Api.HTTPException 404 "Model not found", Some mgr)).
Proof.
  split; [intros; repeat split |].
  repeat split; intros mgr p Hm.
  - unfold Api.predict_no_show, ModelManager.get_model. now rewrite Hm.
  - unfold Api.predict_risk, ModelManager.get_model. now rewrite Hm.
  - unfold Api.predict_batch, ModelManager.get_model. now rewrite Hm.
Qed.

(** X25.  The model-info endpoint reports usage: after any call of the no-show
    endpoint on a registry that holds a model under "no_show_predictor",
    successful or not, the info of that name shows last_used at the time
    of the call; for a name without metadata it answers 200 with an empty
    mapping, never 404; only without a registry does it answer 404. *)
Theorem model_info_reports_usage (e : ModelManager.env) (pd : list record -> DataFrame)
    (mgr : ModelManager.t) (model : model_obj) (payload : Api.NoShowPredictionRequest) :
  ModelManager.models mgr !! "no_show_predictor" = Some model ->
  (exists entry,
     Api.model_info (snd (Api.predict_no_show e pd (Some mgr) payload)) "no_show_predictor"
       = Api.Success (Api.mk_info "no_show_predictor" entry) /\
     entry !! "last_used" = Some (ModelManager.utcnow e)) /\
  (forall name,
     ModelManager.model_metadata mgr !! name = None ->
     Api.model_info (Some mgr) name = Api.Success (Api.mk_info name ∅)) /\
  (forall name,
     Api.model_info None name = Api.HTTPException 404 "Model manager not available").
Proof.
  intros Hm. split; [| split].
  - unfold Api.predict_no_show, ModelManager.get_model. rewrite Hm. simpl.
    unfold Api.model_info, dict_get, ModelManager.stamp. simpl.
    rewrite lookup_insert_eq. simpl. eexists. split; [reflexivity |].
    apply lookup_insert_eq.
  - intros name Hnone. unfold Api.model_info, dict_get. now rewrite Hnone.
  - reflexivity.
Qed.

Lemma model_info_reports_usage_witness :
  exists entry,
    Api.model_info
      (snd (Api.predict_no_show Examples.working_env Examples.frame_of_records
              (Some (Examples.manager_with "no_show_predictor"
                       (Examples.raising_model Examples.secret_error)))
              Examples.sample_request)) "no_show_predictor"
      = Api.Success (Api.mk_info "no_show_predictor" entry) /\
    entry !! "last_used" = Some "2024-01-01T00:00:00".
Proof.
  exact (proj1 (model_info_reports_usage Examples.working_env Examples.frame_of_records
                  (Examples.manager_with "no_show_predictor"
                     (Examples.raising_model Examples.secret_error))
                  (Examples.raising_model Examples.secret_error) Examples.sample_request
                  (lookup_singleton_eq _ _))).
Defined.

(** ** The application *)

(** X26.  The health endpoint answers 503 only when the Redis ping raises.
    Otherwise it answers 200 with the overall status "healthy" whatever the
    state of the models and of Kafka: the models are reported healthy
    exactly when a registry is present and its own health check passes,
    Kafka exactly when a client is present, running and has a producer, and
    the loaded models are those of the registry, none without one. *)
Theorem health_endpoint_status (now : string) (redis_ping : result unit)
    (manager : option ModelManager.t) (kafka : option Main.KafkaClient) :
  (forall exc, redis_ping = Raise exc ->
     Main.health_check now redis_ping manager kafka =
       Api.HTTPException 503 "Service unhealthy") /\
  (forall u, redis_ping = Ok u ->
     exists body,
       Main.health_check now redis_ping manager kafka = Api.Success body /\
       Main.health_status body = "healthy" /\
       Main.svc_redis (Main.services body) = "healthy" /\
       (Main.svc_models (Main.services body) = "healthy" <->
        exists mgr, manager = Some mgr /\ ModelManager.health_check mgr = true) /\
       (Main.svc_kafka (Main.services body) = "healthy" <->
        exists k, kafka = Some k /\ Main.kafka_running k = true /\
                  is_Some (Main.kafka_producer k)) /\
       Main.models_loaded body =
         match manager with
         | Some mgr => ModelManager.get_loaded_models mgr
         | None => []
         end).
Proof.
  split.
  - intros exc ->. reflexivity.
  - intros u ->. unfold Main.health_check. eexists. split; [reflexivity |]. simpl.
    split; [reflexivity |]. split; [reflexivity |].
    split; [| split; [| destruct manager; reflexivity]].
    + split.
      * destruct manager as [mgr |]; [| discriminate].
        destruct (ModelManager.health_check mgr) eqn:Hh; [| discriminate].
        intros _. exists mgr. auto.
      * intros (mgr & -> & ->). reflexivity.
    + split.
      * destruct kafka as [k |]; [| discriminate]. unfold Main.is_connected.
        destruct (Main.kafka_running k) eqn:Hr, (Main.kafka_producer k) eqn:Hp; simpl;
          try discriminate.
        intros _. exists k. rewrite Hr, Hp. eauto.
      * intros (k & -> & Hr & [u' Hp]). unfold Main.is_connected. now rewrite Hr, Hp.
Qed.

(** X27.  The CORS set-up allows credentials unless the allowed hosts are
    exactly the single wildcard; a wildcard among other hosts keeps
    credentials allowed.  Every origin it hands on is the wildcard or
    starts with http:// or https://, there is one per allowed host, and
    normalizing twice changes nothing more. *)
Theorem cors_config_spec (hosts : list string) :
  (snd (Main.cors_config hosts) = false <-> hosts = ["*"]) /\
  length (fst (Main.cors_config hosts)) = length hosts /\
  Forall (fun o => o = "*" \/ Main.startswith o "http://" = true \/
                   Main.startswith o "https://" = true)
    (fst (Main.cors_config hosts)) /\
  fst (Main.cors_config (fst (Main.cors_config hosts))) = fst (Main.cors_config hosts) /\
  (forall h, In "*" (h :: hosts) -> hosts <> [] ->
     snd (Main.cors_config (h :: hosts)) = true /\
     In "*" (fst (Main.cors_config (h :: hosts)))).
Proof.
  assert (Hnorm : forall o, Main.normalize_origin o = "*" \/
                    Main.startswith (Main.normalize_origin o) "http://" = true \/
                    Main.startswith (Main.normalize_origin o) "https://" = true).
  { intros o. unfold Main.normalize_origin.
    destruct (String.eqb o "*") eqn:Hstar; [left; now apply String.eqb_eq |].
    destruct (Main.startswith o "http://") eqn:H1; [auto |].
    destruct (Main.startswith o "https://") eqn:H2; [auto |].
    right. left. unfold Main.startswith. simpl.
    change (String.prefix "" o = true). now destruct o. }
  assert (Hidem : forall o, Main.normalize_origin (Main.normalize_origin o) =
                            Main.normalize_origin o).
  { intros o. destruct (Hnorm o) as [H | [H | H]];
      unfold Main.normalize_origin at 1; rewrite ?H.
    - reflexivity.
    - destruct (String.eqb _ "*"); reflexivity.
    - destruct (String.eqb _ "*"); [reflexivity |]. rewrite orb_true_r. reflexivity. }
  assert (Hstar : Main.normalize_origin "*" = "*") by reflexivity.
  assert (Hall : forall l, Forall (fun o => o = "*" \/ Main.startswith o "http://" = true \/
                   Main.startswith o "https://" = true) (map Main.normalize_origin l)).
  { intros l. apply Forall_map, Forall_forall. intros o _. apply Hnorm. }
  assert (Hmapidem : forall l, map Main.normalize_origin (map Main.normalize_origin l) =
                               map Main.normalize_origin l).
  { intros l. rewrite map_map. apply map_ext. exact Hidem. }
  assert (Hmapnil : forall l, map Main.normalize_origin l = ["*"] -> False \/ True)
    by (intros; now right).
  clear Hmapnil.
  split; [| split; [| split; [| split]]].
  - unfold Main.cors_config. destruct hosts as [| o [| o' l]]; simpl.
    + split; discriminate.
    + destruct (String.eqb o "*") eqn:Hs; simpl.
      * apply String.eqb_eq in Hs. subst. split; reflexivity.
      * split; [discriminate |]. intros [= ->]. discriminate Hs.
    + split; discriminate.
  - unfold Main.cors_config. destruct hosts as [| o [| o' l]]; simpl; try reflexivity.
    + destruct (String.eqb o "*"); reflexivity.
    + now rewrite length_map.
  - unfold Main.cors_config. destruct hosts as [| o [| o' l]].
    + constructor.
    + destruct (String.eqb o "*") eqn:Hs; [| apply Hall].
      apply String.eqb_eq in Hs. subst. simpl. repeat constructor.
    + apply Hall.
  - unfold Main.cors_config at 2 3. destruct hosts as [| o [| o' l]].
    + reflexivity.
    + destruct (String.eqb o "*") eqn:Hs.
      * simpl. unfold Main.cors_config. now rewrite Hs.
      * cbn [fst map]. unfold Main.cors_config.
        destruct (String.eqb (Main.normalize_origin o) "*"); [reflexivity |].
        cbn [fst map]. now rewrite Hidem.
    + cbn [fst]. unfold Main.cors_config. cbn [map fst].
      now rewrite !Hidem, Hmapidem.
  - intros h Hin Hne. unfold Main.cors_config.
    destruct hosts as [| o l]; [contradiction |]. cbn [fst snd].
    split; [reflexivity |].
    apply in_map_iff. exists "*". auto.
Qed.

(** X28.  A model without the single-record method is asked through its batch
    method on a one-row table and the first probability is used; without
    either method, or when the batch method returns no probability, the
    no-show endpoint answers 500 "Prediction failed". *)
Theorem no_show_falls_back_to_batch (e : ModelManager.env) (pd : list record -> DataFrame)
    (mgr : ModelManager.t) (model : model_obj) (payload : Api.NoShowPredictionRequest) :
  ModelManager.models mgr !! "no_show_predictor" = Some model ->
  attr_predict_proba_single model = None ->
  (attr_predict_proba model = None ->
   fst (Api.predict_no_show e pd (Some mgr) payload) =
     Api.HTTPException 500 "Prediction failed") /\
  (forall g,
     attr_predict_proba model = Some g ->
     g (pd [Api.no_show_data payload]) = Ok [] ->
     fst (Api.predict_no_show e pd (Some mgr) payload) =
       Api.HTTPException 500 "Prediction failed") /\
  (forall g prob rest,
     attr_predict_proba model = Some g ->
     g (pd [Api.no_show_data payload]) = Ok (prob :: rest) ->
     attr_explain_factors model = None ->
     0 <= prob <= 1 ->
     fst (Api.predict_no_show e pd (Some mgr) payload) =
       Api.Success (Api.mk_no_show_response (Api.no_show_label prob) prob
                      (Api.no_show_risk prob) (attr_last_confidence model) None)).
Proof.
  intros Hm Hsingle. unfold Api.predict_no_show, ModelManager.get_model. rewrite Hm.
  unfold Api.no_show_try, Api.no_show_prob, Api.explain, call_method. rewrite Hsingle.
  split; [| split].
  - intros ->. reflexivity.
  - intros g -> ->. reflexivity.
  - intros g prob rest -> -> -> Hin. simpl.
    now rewrite new_no_show_response_ok.
Qed.

Lemma no_show_falls_back_to_batch_witness :
  fst (Api.predict_no_show Examples.working_env Examples.frame_of_records
         (Some (Examples.manager_with "no_show_predictor" PatientRiskScorer_obj))
         Examples.sample_request) = Api.HTTPException 500 "Prediction failed".
Proof.
  exact (proj1 (no_show_falls_back_to_batch Examples.working_env Examples.frame_of_records
                  (Examples.manager_with "no_show_predictor" PatientRiskScorer_obj)
                  PatientRiskScorer_obj Examples.sample_request
                  (lookup_singleton_eq _ _) eq_refl) eq_refl).
Defined.

Section Registry_growth.

Import ModelManager.

Lemma initialize_one_keeps (e : env) (self : t) (name n : string) :
  (is_Some (models self !! n) -> is_Some (models (initialize_one e self name) !! n)) /\
  (is_Some (model_metadata self !! n) ->
   is_Some (model_metadata (initialize_one e self name) !! n)).
Proof.
  destruct (decide (n = name)) as [-> | Hne].
  - pose proof (initialize_one_view e self name) as Hv.
    unfold Derived.initialize_view, Derived.view at 2 in Hv.
    destruct (files self !! model_file name) as [[obj |] |];
      destruct (baseline_error e name);
      try (destruct (decide (name = "no_show_predictor" \/ name = "risk_scorer")));
      apply view_inv in Hv as (-> & -> & _); eauto.
  - pose proof (initialize_one_view_ne e self name n Hne) as Hv.
    unfold Derived.view at 2 in Hv. apply view_inv in Hv as (-> & -> & _). auto.
Qed.

Lemma initialize_loop_keeps (e : env) (names : list string) (self : t) (n : string) :
  (is_Some (models self !! n) ->
   is_Some (models (foldl (initialize_one e) self names) !! n)) /\
  (is_Some (model_metadata self !! n) ->
   is_Some (model_metadata (foldl (initialize_one e) self names) !! n)).
Proof.
  revert self. induction names as [| name names IH]; intros self; [auto |].
  cbn [foldl fold_left].
  destruct (IH (initialize_one e self name)) as [IHm IHd].
  destruct (initialize_one_keeps e self name n) as [Hm Hd]. auto.
Qed.

Lemma run_op_keeps (e : env) (o : op) (self : t) (n : string) :
  (is_Some (models self !! n) -> is_Some (models (run_op e self o) !! n)) /\
  (is_Some (model_metadata self !! n) -> is_Some (model_metadata (run_op e self o) !! n)).
Proof.
  destruct o as [| name | name model |]; simpl.
  - unfold initialize.
    match goal with
    | |- context [foldl (initialize_one e) ?s1 ?ks] =>
        destruct (initialize_loop_keeps e ks s1 n) as [Hm Hd]
    end.
    split; [| exact Hd]. intros Hsome. apply Hm. simpl.
    destruct (decide (n = "risk_scorer")) as [-> | H1];
      [rewrite lookup_insert_eq; eauto | rewrite lookup_insert_ne by congruence].
    destruct (decide (n = "no_show_predictor")) as [-> | H2];
      [rewrite lookup_insert_eq; eauto | now rewrite lookup_insert_ne by congruence].
  - destruct (get_model_dom e self name) as [-> Hd]. split; [auto |].
    rewrite <- !elem_of_dom. apply Hd.
  - destruct (save_model_dom e self name model) as [-> Hd]. split; [auto |].
    rewrite <- !elem_of_dom. apply Hd.
  - destruct (cleanup_dom e self) as [-> Hd]. split; [auto |].
    rewrite <- !elem_of_dom. apply Hd.
Qed.

End Registry_growth.

(** X29.  The registry never forgets: no sequence of initialize, get_model,
    save_model and cleanup removes a name from the model mapping or from
    the metadata mapping. *)
Theorem registry_never_forgets (ops : list (ModelManager.env * ModelManager.op))
    (self : ModelManager.t) (n : string) :
  (is_Some (ModelManager.models self !! n) ->
   is_Some (ModelManager.models (ModelManager.run_ops self ops) !! n)) /\
  (is_Some (ModelManager.model_metadata self !! n) ->
   is_Some (ModelManager.model_metadata (ModelManager.run_ops self ops) !! n)).
Proof.
  unfold ModelManager.run_ops. revert self.
  induction ops as [| [e o] ops IH]; intros self; [auto |].
  cbn [foldl fold_left fst snd].
  destruct (IH (ModelManager.run_op e self o)) as [IHm IHd].
  destruct (run_op_keeps e o self n) as [Hm Hd]. auto.
Qed.
